(** * Rigol instruments: the oscilloscope read-and-decode path and the
      arbitrary-waveform loaders

    A shallow embedding of [RigolInstruments.py] (classes [RigolDS1102],
    [RigolDG1032TMC], [RigolDG1032]), of the quantizer and the waveform
    editor of [GenerateArb.py], and of the functions that choose a
    generator in [InstrumentControlScript.py] and [ScopeLogging.py].

    Conventions of the embedding.
    - Python [float]s and NumPy [float64]s are idealised as exact rationals
      ([Q]); what is proved about formulas is proved in exact arithmetic.
      Division keeps its Python behaviour at zero: [ZeroDivisionError] for
      Python floats, [nan]/[inf] for NumPy arrays.
    - Python [str] (byte strings, the code is Python 2) is [string].
    - An instance attribute that may not have been assigned yet is an
      [option]; reading it while unset raises [AttributeError].  A local
      variable that some branches leave unassigned is an [option] too;
      reading it while unassigned raises [UnboundLocalError].
    - Methods are computations in a state-and-exception monad whose state
      survives an exception: what was written to the transport before a
      failure stays written.
    - [time.sleep] has no counterpart. *)

From Stdlib Require Import ZArith QArith Qround Qabs Qminmax List String Ascii Bool.
From Stdlib Require Import Lia Lqa DecimalString.
Import ListNotations.

Local Open Scope Z_scope.

(* ===================================================================== *)
(** ** The Python runtime the methods rely on *)
(* ===================================================================== *)

Module Py.

(** Exceptions are identified by the name of their class. *)
Definition exn := string.

Definition AttributeError : exn := "AttributeError"%string.
Definition UnboundLocalError : exn := "UnboundLocalError"%string.
Definition ValueError : exn := "ValueError"%string.
Definition ZeroDivisionError : exn := "ZeroDivisionError"%string.
Definition IndexError : exn := "IndexError"%string.
Definition OverflowError : exn := "OverflowError"%string.


Inductive result (A : Type) : Type :=
| Ok (a : A)
| Raise (e : exn).
Arguments Ok {A} a.
Arguments Raise {A} e.

(** A method body: it reads and updates the object (and the transport it
    owns) and either returns or raises.  The state is returned in both
    cases. *)
Definition M (S A : Type) : Type := S -> result A * S.

Definition ret {S A} (a : A) : M S A := fun s => (Ok a, s).

Definition bind {S A B} (c : M S A) (k : A -> M S B) : M S B :=
  fun s =>
    match c s with
    | (Ok a, s') => k a s'
    | (Raise e, s') => (Raise e, s')
    end.

Definition raise {S A} (e : exn) : M S A := fun s => (Raise e, s).

Definition gets {S A} (f : S -> A) : M S A := fun s => (Ok (f s), s).

Definition modify {S} (f : S -> S) : M S unit := fun s => (Ok tt, f s).

(** [self.x] for an attribute that may be unset. *)
Definition attr {S A} (f : S -> option A) : M S A :=
  fun s =>
    match f s with
    | Some a => (Ok a, s)
    | None => (Raise AttributeError, s)
    end.

(** Reading a local variable that may be unassigned. *)
Definition local {S A} (v : option A) : M S A :=
  match v with
  | Some a => ret a
  | None => raise UnboundLocalError
  end.

(** The result of a builtin conversion ([float(s)], [int(s)]) that raises
    [ValueError] on a malformed argument. *)
Definition convert {S A} (v : option A) : M S A :=
  match v with
  | Some a => ret a
  | None => raise ValueError
  end.

(** [if b: c] with no [else]. *)
Definition when {S} (b : bool) (c : M S unit) : M S unit :=
  if b then c else ret tt.

(** [str(n)] for an [int]. *)
Definition str_int (n : Z) : string := NilZero.string_of_int (Z.to_int n).

Definition upper_char (c : ascii) : ascii :=
  let n := nat_of_ascii c in
  if ((97 <=? n)%nat && (n <=? 122)%nat)%bool then ascii_of_nat (n - 32) else c.

(** [s.upper()] on a byte string. *)
Fixpoint upper (s : string) : string :=
  match s with
  | EmptyString => EmptyString
  | String c r => String (upper_char c) (upper r)
  end.

(** The newline and tab characters of the printed messages. *)
Definition nl : string := String (ascii_of_nat 10) EmptyString.
Definition tab : string := String (ascii_of_nat 9) EmptyString.

(** What [print] was given: a string, or a number. *)
Inductive printed : Type :=
| PText (s : string)
| PNumber (q : Q).

End Py.

Export Py.

Declare Scope py_scope.
Delimit Scope py_scope with py.
Notation "x <- c ;; k" := (bind c (fun x => k))
  (at level 61, c at next level, right associativity) : py_scope.
Notation "c ;; k" := (bind c (fun _ => k))
  (at level 61, right associativity) : py_scope.

(* ===================================================================== *)
(** ** The NumPy operations the methods rely on *)
(* ===================================================================== *)

Module Np.

(** A value of a signed 16-bit array element: wrap-around written out. *)
Definition int16 (z : Z) : Z := (z + 32768) mod 65536 - 32768.

(** [np.frombuffer(raw, 'B')]: one unsigned byte per character. *)
Definition frombuffer (raw : string) : list Z :=
  map (fun c => Z.of_N (N_of_ascii c)) (list_ascii_of_string raw).

(** Rounding to the nearest integer, ties to the even one ([np.round]). *)
Definition round_half_even (x : Q) : Z :=
  let f := Qfloor x in
  let d := (x - inject_Z f)%Q in
  match (d ?= 1 # 2)%Q with
  | Lt => f
  | Gt => f + 1
  | Eq => if Z.even f then f else f + 1
  end.

(** [np.round(x)] keeps the floating type. *)
Definition round (x : Q) : Q := inject_Z (round_half_even x).

(** [np.round(x, 3)]. *)
Definition round3 (x : Q) : Q := (inject_Z (round_half_even (x * 1000)) / 1000)%Q.

(** [np.arange(start, stop, step)] on floats: [ceil((stop - start)/step)]
    elements [start + i*step].  The length is computed by dividing the
    Python floats it is given, so a zero step raises [ZeroDivisionError]. *)
Definition arange_len (start stop step : Q) : nat :=
  Z.to_nat (Qceiling ((stop - start) / step)).

Definition arange (start stop step : Q) : result (list Q) :=
  if Qeq_bool step 0 then Raise ZeroDivisionError
  else Ok (map (fun i => (start + inject_Z (Z.of_nat i) * step)%Q)
               (seq 0 (arange_len start stop step))).

(** [np.column_stack] of one-dimensional arrays: the arrays become the
    columns of a two-dimensional one, given as its list of rows.  Arrays of
    different lengths raise [ValueError]. *)
Fixpoint rows2 (a b : list Q) : list (list Q) :=
  match a, b with
  | x :: a', y :: b' => [x; y] :: rows2 a' b'
  | _, _ => []
  end.

Fixpoint rows3 (a b c : list Q) : list (list Q) :=
  match a, b, c with
  | x :: a', y :: b', z :: c' => [x; y; z] :: rows3 a' b' c'
  | _, _, _ => []
  end.

Definition column_stack2 (a b : list Q) : result (list (list Q)) :=
  if (List.length a =? List.length b)%nat then Ok (rows2 a b) else Raise ValueError.

Definition column_stack3 (a b c : list Q) : result (list (list Q)) :=
  if ((List.length a =? List.length b)%nat && (List.length b =? List.length c)%nat)%bool
  then Ok (rows3 a b c) else Raise ValueError.

(** Column [j] of a two-dimensional array ([A[:, j]]). *)
Definition column (j : nat) (A : list (list Q)) : list Q :=
  map (fun r => nth j r 0%Q) A.

End Np.

(* ===================================================================== *)
(** ** [class RigolDS1102]: the oscilloscope *)
(* ===================================================================== *)

Module DS1102.

Import Np.

(** The instrument behind the transport ([self.resource]): what a read
    returns is a function of the commands written so far, newest first. *)
Definition Device := list string -> string.

(** The Python object, together with the transport it owns and the
    process's standard output. *)
Record Scope : Type := mkScope {
  sent : list string;        (* commands written, newest first *)
  stdout : list printed;     (* what was printed, newest first *)
  verbose : bool;            (* set in [__init__] *)
  nChannels : option Z;      (* set by [setNumChannels], [getNumChannels] *)
  nPoints : option Z;        (* set by [getNPoints] *)
  tScale : option Q;         (* set by [getTScale] *)
  tOffs : option Q;          (* set by [getTOffset] *)
  acqMode : option string;   (* set by [getAcqMode] *)
  memDepth : option string   (* set by [getMemDepth] *)
}.

(** The object as [__init__] leaves it. *)
Definition init : Scope :=
  mkScope [] [] false None None None None None None.

Definition set_sent (v : list string) (s : Scope) : Scope :=
  mkScope v (stdout s) (verbose s) (nChannels s) (nPoints s) (tScale s)
          (tOffs s) (acqMode s) (memDepth s).
Definition set_stdout (v : list printed) (s : Scope) : Scope :=
  mkScope (sent s) v (verbose s) (nChannels s) (nPoints s) (tScale s)
          (tOffs s) (acqMode s) (memDepth s).
Definition set_verbose (v : bool) (s : Scope) : Scope :=
  mkScope (sent s) (stdout s) v (nChannels s) (nPoints s) (tScale s)
          (tOffs s) (acqMode s) (memDepth s).
Definition set_nChannels (v : Z) (s : Scope) : Scope :=
  mkScope (sent s) (stdout s) (verbose s) (Some v) (nPoints s) (tScale s)
          (tOffs s) (acqMode s) (memDepth s).
Definition set_nPoints (v : Z) (s : Scope) : Scope :=
  mkScope (sent s) (stdout s) (verbose s) (nChannels s) (Some v) (tScale s)
          (tOffs s) (acqMode s) (memDepth s).
Definition set_tScale (v : Q) (s : Scope) : Scope :=
  mkScope (sent s) (stdout s) (verbose s) (nChannels s) (nPoints s) (Some v)
          (tOffs s) (acqMode s) (memDepth s).
Definition set_tOffs (v : Q) (s : Scope) : Scope :=
  mkScope (sent s) (stdout s) (verbose s) (nChannels s) (nPoints s) (tScale s)
          (Some v) (acqMode s) (memDepth s).
Definition set_acqMode (v : string) (s : Scope) : Scope :=
  mkScope (sent s) (stdout s) (verbose s) (nChannels s) (nPoints s) (tScale s)
          (tOffs s) (Some v) (memDepth s).
Definition set_memDepth (v : string) (s : Scope) : Scope :=
  mkScope (sent s) (stdout s) (verbose s) (nChannels s) (nPoints s) (tScale s)
          (tOffs s) (acqMode s) (Some v).

(** The argument of [readWaveform]: callers pass [1], [2] or ['BOTH']. *)
Inductive pyarg : Type :=
| PyInt (n : Z)
| PyStr (s : string).

Definition str (a : pyarg) : string :=
  match a with
  | PyInt n => str_int n
  | PyStr s => s
  end.

(** The time/division tables of [getNDevs], as the dict literals list them. *)
Definition devDict_normal_1 : list (Q * Q) :=
  [ (50#1000, 12); (20#1000, 82); (10#1000, 66); (5#1000, 66);
    (2#1000, 82); (1#1000, 66); (500#1000000, 66); (200#1000000, 82);
    (100#1000000, 66); (50#1000000, 66); (20#1000000, 82); (10#1000000, 66);
    (5#1000000, 66); (2#1000000, 82) ]%Q.

Definition devDict_normal_2 : list (Q * Q) :=
  [ (50#1000, 12); (20#1000, 41); (10#1000, 33); (5#1000, 33);
    (2#1000, 41); (1#1000, 33); (500#1000000, 33); (200#1000000, 41);
    (100#1000000, 33); (50#1000000, 33); (20#1000000, 41); (10#1000000, 33);
    (5#1000000, 33); (2#1000000, 41) ]%Q.

Definition devDict_long_1 : list (Q * Q) :=
  [ (500#1000, 12); (200#1000, 12); (100#1000, 12); (50#1000, 12);
    (20#1000, 26); (10#1000, 26); (5#1000, 21); (2#1000, 26); (1#1000, 26);
    (500#1000000, 21); (200#1000000, 26); (100#1000000, 105#2);
    (50#1000000, 105); (20#1000000, 262); (10#1000000, 524);
    (5#1000000, 1048) ]%Q.

Definition devDict_long_2 : list (Q * Q) :=
  [ (500#1000, 12); (200#1000, 12); (100#1000, 12); (50#1000, 12);
    (20#1000, 26); (10#1000, 26); (5#1000, 21); (2#1000, 26); (1#1000, 26);
    (500#1000000, 21); (200#1000000, 26); (100#1000000, 105#2);
    (50#1000000, 105); (20#1000000, 262); (10#1000000, 524);
    (5#1000000, 1048) ]%Q.

(** [devDict[tDev]]: the value of the key equal to [tDev], if there is one. *)
Fixpoint dict_get (d : list (Q * Q)) (k : Q) : option Q :=
  match d with
  | [] => None
  | (k', v) :: d' => if Qeq_bool k' k then Some v else dict_get d' k
  end.

(** The per-sample arithmetic of [rescaleToVolts] on a byte [b], for a
    [Vscale] that is not zero: [b * -1 + 255] is computed in 16-bit
    integers (the type NumPy gives the product of an unsigned byte array
    and [-1]), the rest in floats. *)
Definition volts (Voffs Vscale : Q) (b : Z) : Q :=
  ((inject_Z (int16 (int16 (b * -1) + 255)) - 130 - Voffs / Vscale * 25)
     / 25 * Vscale)%Q.

Definition error_message : string :=
  ("ERROR: The current time/dev setting of the scope was not coded into the 'getNDevs' function!"
     ++ nl)%string.

Section Methods.

(** Python's [float(s)] and [int(s)] on a string: [None] where Python
    raises [ValueError]. *)
Variable py_float : string -> option Q.
Variable py_int : string -> option Z.

(** The instrument on the other end. *)
Variable dev : Device.

Local Open Scope py_scope.
Local Open Scope string_scope.

Definition print (p : printed) : M Scope unit :=
  modify (fun s => set_stdout (p :: stdout s) s).

(** [self.resource.write(command)] *)
Definition write (command : string) : M Scope unit :=
  modify (fun s => set_sent (command :: sent s) s).

(** [self.resource.read(nRead)]: at most [nRead] bytes of the reply. *)
Definition read (nRead : Z) : M Scope string :=
  gets (fun s => substring 0 (Z.to_nat nRead) (dev (sent s))).

Definition query (command : string) : M Scope string :=
  write command ;; read 100.

Definition getVScale (channel : Z) : M Scope Q :=
  let command := ":CHAN" ++ str_int channel ++ ":SCAL?" in
  r <- query command ;;
  scale <- convert (py_float r) ;;
  ret scale.

Definition getVOffset (channel : Z) : M Scope Q :=
  let command := ":CHAN" ++ str_int channel ++ ":OFFS?" in
  r <- query command ;;
  offset <- convert (py_float r) ;;
  ret offset.

Definition getTScale : M Scope unit :=
  let command := ":TIM:SCAL?" in
  r <- query command ;;
  v <- convert (py_float r) ;;
  modify (set_tScale v).

Definition getTOffset : M Scope Q :=
  let command := ":TIM:OFFS?" in
  r <- query command ;;
  v <- convert (py_float r) ;;
  modify (set_tOffs v) ;;
  attr tOffs.

Definition getMemDepth : M Scope string :=
  let command := ":ACQ:MEMDEPTH?" in
  r <- query command ;;
  modify (set_memDepth r) ;;
  attr memDepth.

Definition getAcqMode : M Scope string :=
  let command := ":WAV:POINTS:MODE?" in
  r <- query command ;;
  modify (set_acqMode r) ;;
  attr acqMode.

(** The branch of [getNPoints] taken for a triple: the value given to the
    local [nPoints], if any branch assigns it. *)
Definition nPoints_of (mode depth : string) (nCh : Z) : option Z :=
  if mode =? "NORMAL" then Some (600 + 10)%Z
  else if ((depth =? "NORMAL") && (nCh =? 2)%Z)%bool then Some (8192 + 10)%Z
  else if ((depth =? "NORMAL") && (nCh =? 1)%Z)%bool then Some (16384 + 10)%Z
  else if ((depth =? "LONG") && (nCh =? 2)%Z)%bool then Some (524288 + 10)%Z
  else if ((depth =? "LONG") && (nCh =? 1)%Z)%bool then Some (1048576 + 10)%Z
  else None.

Definition getNPoints : M Scope unit :=
  mode <- getAcqMode ;;
  depth <- getMemDepth ;;
  nCh <- attr nChannels ;;
  let nPoints := nPoints_of mode depth nCh in
  v <- local nPoints ;;
  modify (set_nPoints v).

(** The argument [nChannels] is not used by the method. *)
Definition getNumChannels (nChannels_arg : Z) : M Scope Z :=
  let command := ":CHAN1:DISP?" in
  ch1 <- query command ;;
  let command := ":CHAN1:DISP?" in
  ch2 <- query command ;;
  (if ((ch1 =? "ON") && (ch2 =? "ON"))%bool then modify (set_nChannels 2)
   else if ((ch1 =? "OFF") && (ch2 =? "OFF"))%bool then modify (set_nChannels 0)
   else modify (set_nChannels 1)) ;;
  attr nChannels.

Definition setNumChannels (nChannels : Z) : M Scope unit :=
  modify (set_nChannels nChannels) ;;
  if (nChannels =? 2)%Z then
    write ":CHAN1:DISP ON" ;; write ":CHAN2:DISP ON"
  else
    write ":CHAN1:DISP ON" ;; write ":CHAN2:DISP OFF".

(** The table [getNDevs] selects in RAW acquisition, if the channel count
    is one it has a table for; otherwise the local [devDict] stays
    unassigned. *)
Definition devDict_of (depth : string) (nChan : Z) : option (list (Q * Q)) :=
  if depth =? "NORMAL" then
    if (nChan =? 1)%Z then Some devDict_normal_1
    else if (nChan =? 2)%Z then Some devDict_normal_2
    else None
  else
    if (nChan =? 1)%Z then Some devDict_long_1
    else if (nChan =? 2)%Z then Some devDict_long_2
    else None.

Definition lift {A} (r : result A) : M Scope A := fun s => (r, s).

Definition getNDevs : M Scope Q :=
  getTScale ;;
  tDev <- attr tScale ;;
  mode <- getAcqMode ;;
  depth <- getMemDepth ;;
  nChan <- attr nChannels ;;
  (* the locals nDev, useDict and devDict after the if statements *)
  let '(nDev, useDict, devDict) :=
    if mode =? "NORMAL" then (Some 12%Q, false, None)
    else (None, true, devDict_of depth nChan) in
  nDev <- (if useDict : bool then
             d <- local devDict ;;
             match dict_get d tDev with
             | Some v => ret (Some v)
             | None =>
                 (* except KeyError: print(...) *)
                 print (PText error_message) ;; ret nDev
             end
           else ret nDev) ;;
  (* return nDev *)
  local nDev.

Definition getTimeVec : M Scope (list Q) :=
  getNPoints ;;
  getTScale ;;
  getTOffset ;;
  n <- attr nPoints ;;
  let nDataPoints := (n - 10)%Z in
  nDevs <- getNDevs ;;
  print (PNumber nDevs) ;;
  tS <- attr tScale ;;
  (* nDataPoints is at least 600: this division cannot fail *)
  let dt := (tS * nDevs / inject_Z nDataPoints)%Q in
  a <- lift (arange (- tS * nDevs / 2)%Q (tS * nDevs / 2)%Q dt) ;;
  off <- attr tOffs ;;
  let timeVec := map (fun t => (t + off)%Q) a in
  ret timeVec.

Definition readTrace (channel : Z) : M Scope (list Z) :=
  let command := ":WAV:DATA? CHAN" ++ str_int channel in
  write command ;;
  n <- attr nPoints ;;
  rawdata <- read n ;;
  let data := skipn 10 (frombuffer rawdata) in
  v <- gets verbose ;;
  when v (print (PText ("Read " ++ str_int (Z.of_nat (List.length data))
                          ++ " data points from Channel " ++ str_int channel
                          ++ "." ++ nl))) ;;
  ret data.

Definition rescaleToVolts (data : list Z) (channel : Z) : M Scope (list Q) :=
  Voffs <- getVOffset channel ;;
  Vscale <- getVScale channel ;;
  if Qeq_bool Vscale 0 then raise ZeroDivisionError
  else ret (map (volts Voffs Vscale) data).

Definition readWaveform (channel : pyarg) (stopping : bool)
  : M Scope (list (list Q)) :=
  tData <- getTimeVec ;;
  let channel := str channel in
  sel <- (if upper channel =? "BOTH" then ret (1%Z, true)
          else c <- convert (py_int channel) ;; ret (c, false)) ;;
  let '(channel, bothChannels) := sel in
  n <- attr nPoints ;;
  when (610 <? n)%Z (when stopping (write ":STOP")) ;;
  v <- gets verbose ;;
  when v (print (PText (nl ++ "Attempting to read " ++ str_int n
                          ++ " bytes from CH1..." ++ nl))) ;;
  data <- readTrace channel ;;
  data2 <- (if bothChannels then readTrace 2 else ret []) ;;
  n <- attr nPoints ;;
  when (610 <? n)%Z (write ":RUN") ;;
  Vdata <- rescaleToVolts data channel ;;
  if bothChannels then
    Vdata2 <- rescaleToVolts data2 2 ;;
    lift (column_stack3 tData Vdata Vdata2)
  else
    lift (column_stack2 tData Vdata).

End Methods.

End DS1102.

(* ===================================================================== *)
(** ** [loadVolatile] of [RigolDG1032TMC] and [RigolDG1032] *)
(* ===================================================================== *)

Module Generator.

Import Np.

(** An element of a NumPy float array: dividing by zero there gives
    [nan] or an infinity (and a warning), not an exception. *)
Inductive npfloat : Type :=
| Fin (q : Q)
| PosInf
| NegInf
| NaN.

(** [x / d] for array elements. *)
Definition np_div (x d : Q) : npfloat :=
  if Qeq_bool d 0 then
    match (x ?= 0)%Q with
    | Eq => NaN
    | Gt => PosInf
    | Lt => NegInf
    end
  else Fin (x / d).

(** [x * k] for an array element [x] and a finite scalar [k]. *)
Definition np_mul (x : npfloat) (k : Q) : npfloat :=
  match x with
  | Fin q => Fin (q * k)
  | NaN => NaN
  | PosInf => match (k ?= 0)%Q with Eq => NaN | Gt => PosInf | Lt => NegInf end
  | NegInf => match (k ?= 0)%Q with Eq => NaN | Gt => NegInf | Lt => PosInf end
  end.

Definition np_round (x : npfloat) : npfloat :=
  match x with
  | Fin q => Fin (round q)
  | _ => x
  end.

(** Python 2's builtin [round]: to the nearest integer, ties away from
    zero. *)
Definition round_half_away (x : Q) : Z :=
  if Qle_bool 0 x then Qfloor (x + (1 # 2)) else Qceiling (x - (1 # 2)).

(** [V.max()] and [V.min()] of a non-empty array. *)
Definition amax (x : Q) (l : list Q) : Q := fold_left Qmax l x.
Definition amin (x : Q) (l : list Q) : Q := fold_left Qmin l x.

(** The generator object: the transport it owns and standard output. *)
Record Gen : Type := mkGen {
  sent : list string;
  stdout : list printed
}.

Section Methods.

(** [str(x)] of a float, and the integer [astype(int)] gives for a value
    that is not finite (the cast is undefined there). *)
Variable str_float : Q -> string.
Variable bad_int : Z.

Local Open Scope py_scope.
Local Open Scope string_scope.

Definition astype_int (x : npfloat) : Z :=
  match x with
  | Fin q => if Qle_bool 0 q then Qfloor q else Qceiling q   (* truncation *)
  | _ => bad_int
  end.

Definition print (p : printed) : M Gen unit :=
  modify (fun g => mkGen (sent g) (p :: stdout g)).

Definition write (command : string) : M Gen unit :=
  modify (fun g => mkGen (command :: sent g) (stdout g)).

Definition setArbitrary (channel : Z) (samplerate : Z) (ampl offs : Q) : M Gen unit :=
  let command := ":SOURCE" ++ str_int channel ++ ":APPL:ARB " ++ str_int samplerate
                   ++ "," ++ str_float ampl ++ "," ++ str_float offs in
  write command.

Definition setVolatilePoints (n : Z) (channel : Z) : M Gen unit :=
  write (":SOUR" ++ str_int channel ++ ":TRACE:DATA:POIN VOLATILE," ++ str_int n).

Definition setVolatileVal (n val : Z) (channel : Z) : M Gen unit :=
  write (":SOUR" ++ str_int channel ++ ":DATA:VAL VOLATILE," ++ str_int n
           ++ "," ++ str_int val).

(** The rescaling step: [V = 1.0*(V-VMin)/VAmpl]. *)
Definition rescale (VMin VAmpl : Q) (V : list Q) : list npfloat :=
  map (fun v => np_div (1 * (v - VMin)) VAmpl) V.

(** [list(np.round(V*pointRange).astype(int))] *)
Definition quantize (pointRange : Z) (V : list npfloat) : list Z :=
  map (fun v => astype_int (np_round (np_mul v (inject_Z pointRange)))) V.

(** The loop that writes the points one by one, [num] counting from 1. *)
Fixpoint upload (num : Z) (val_list : list Z) (channel : Z) : M Gen unit :=
  match val_list with
  | [] => ret tt
  | val :: rest =>
      when (num mod 50 =? 0)%Z
           (print (PText ("Loading point " ++ str_int num ++ " with value "
                            ++ str_int val))) ;;
      setVolatileVal num val channel ;;
      upload (num + 1) rest channel
  end.

Definition loadVolatile (t V : list Q) (channel : Z) (pointRange : Z)
  : M Gen unit :=
  when (negb (List.length t =? List.length V)%nat)
       (print (PText ("Voltage and Time vectors for arbitrary waveform do not match!"
                        ++ nl))) ;;
  match V with
  | [] => raise ValueError          (* V.max() of an empty array *)
  | v0 :: V' =>
      let VMax := amax v0 V' in
      let VMin := amin v0 V' in
      let VAmpl := (VMax - VMin)%Q in
      let VOffs := ((VMax + VMin) / 2)%Q in
      let V := rescale VMin VAmpl V in
      let VAmpl := round3 VAmpl in
      let VOffs := round3 VOffs in
      let val_list := quantize pointRange V in
      let nPoints := Z.of_nat (List.length t) in
      match t with
      | t0 :: t1 :: _ =>
          let dt := (t1 - t0)%Q in
          (* 1/dt is infinite for dt = 0, and int() refuses an infinity *)
          if Qeq_bool dt 0 then raise OverflowError
          else
            let sRate := round_half_away (1 / dt) in
            print (PText ("Channel " ++ str_int channel ++ " Arb Settings:" ++ nl
                            ++ "Sampling Rate " ++ tab ++ str_int sRate ++ "Sa/s" ++ nl
                            ++ "Voltage Scale " ++ tab ++ str_float VAmpl ++ "V" ++ nl
                            ++ "Voltage Offset " ++ tab ++ str_float VOffs ++ "V" ++ nl)) ;;
            setArbitrary channel sRate VAmpl VOffs ;;
            setVolatilePoints nPoints channel ;;
            upload 1 val_list channel
      | _ => raise IndexError        (* t[1] *)
      end
  end.

End Methods.

End Generator.

(** [RigolDG1032TMC.loadVolatile] and [RigolDG1032.loadVolatile] have the
    same body up to the lengths of their pauses. *)
Module RigolDG1032TMC.
Definition loadVolatile := Generator.loadVolatile.
End RigolDG1032TMC.

Module RigolDG1032.
Definition loadVolatile := Generator.loadVolatile.
End RigolDG1032.

(* ===================================================================== *)
(** ** [GenerateArb.py]: the 14-bit quantizer *)
(* ===================================================================== *)

Module GenerateArb.

Definition nSteps : Z := 4096.
Definition bitrange : Z := 16383.

(** [V2b(V)]: [np.round(bitrange*V)] *)
Definition V2b (V : Q) : Q := Np.round (inject_Z bitrange * V).

(** [b2V(b)]: [b/bitrange], on the float [V2b] returns *)
Definition b2V (b : Q) : Q := (b / inject_Z bitrange)%Q.

End GenerateArb.

(* ===================================================================== *)
(** ** Indexing and slicing of Python lists and NumPy arrays *)
(* ===================================================================== *)

Module Index.

(** [int(x)] of a float: truncation towards zero. *)
Definition trunc (x : Q) : Z :=
  if Qle_bool 0 x then Qfloor x else Qceiling x.

(** The position [a[i]] refers to in a sequence of length [n]: negative
    indices count from the end, anything outside [-n, n) is an
    [IndexError]. *)
Definition position (n i : Z) : option nat :=
  if ((0 <=? i) && (i <? n))%bool then Some (Z.to_nat i)
  else if ((- n <=? i) && (i <? 0))%bool then Some (Z.to_nat (i + n))
  else None.

Definition getitem {A} (a : list A) (i : Z) : result A :=
  match position (Z.of_nat (List.length a)) i with
  | Some k =>
      match nth_error a k with
      | Some x => Ok x
      | None => Raise IndexError
      end
  | None => Raise IndexError
  end.

(** [a[i] = x] *)
Definition setitem {A} (a : list A) (i : Z) (x : A) : result (list A) :=
  match position (Z.of_nat (List.length a)) i with
  | Some k => Ok (firstn k a ++ x :: skipn (S k) a)
  | None => Raise IndexError
  end.

(** A bound of a slice [a[start:stop]]: negative bounds count from the
    end, and every bound is clipped to [0, n]. *)
Definition clip (n i : Z) : nat :=
  Z.to_nat (if i <? 0 then Z.max (i + n) 0 else Z.min i n).

(** [a[start:stop]] *)
Definition slice {A} (start stop : Z) (a : list A) : list A :=
  let n := Z.of_nat (List.length a) in
  let lo := clip n start in
  let hi := clip n stop in
  firstn (hi - lo) (skipn lo a).

(** [a[start:stop] = x] for a scalar [x]. *)
Definition slice_fill {A} (start stop : Z) (x : A) (a : list A) : list A :=
  let n := Z.of_nat (List.length a) in
  let lo := clip n start in
  let hi := clip n stop in
  (firstn lo a ++ repeat x (hi - lo) ++ skipn (Nat.max lo hi) a)%list.

(** [a[start:stop] = b] for an array [b]: its length is that of the slice,
    or 1 (the one element is then repeated); NumPy refuses any other. *)
Definition slice_set {A} (start stop : Z) (b : list A) (a : list A)
  : result (list A) :=
  let n := Z.of_nat (List.length a) in
  let lo := clip n start in
  let hi := clip n stop in
  if (List.length b =? hi - lo)%nat then
    Ok (firstn lo a ++ b ++ skipn (Nat.max lo hi) a)%list
  else
    match b with
    | [x] => Ok (slice_fill start stop x a)
    | _ => Raise ValueError
    end.

(** A two-dimensional array: its rows, and the number of columns (which
    an array without rows still has). *)
Record array2 : Type := mkArray2 {
  ncols : Z;
  rows : list (list Q)
}.

(** [A[:, j]] *)
Definition column_at (A : array2) (j : Z) : result (list Q) :=
  match position (ncols A) j with
  | Some k => Ok (Np.column k (rows A))
  | None => Raise IndexError
  end.

(** [a.max()] *)
Definition max_of (a : list Q) : result Q :=
  match a with
  | [] => Raise ValueError
  | x :: a' => Ok (fold_left Qmax a' x)
  end.

(** The truth value of a boolean array in an [if]: that of its element if
    it has exactly one, [False] if it has none (so the NumPy versions that
    run on Python 2; they warn that this is deprecated), refused
    otherwise. *)
Definition truth (a : list (list bool)) : result bool :=
  match List.concat a with
  | [] => Ok false
  | [b] => Ok b
  | _ => Raise ValueError
  end.

(** [a < x], element by element. *)
Definition less (a : list (list Q)) (x : Q) : list (list bool) :=
  map (map (fun v => negb (Qle_bool x v))) a.

End Index.

(* ===================================================================== *)
(** ** [class RigolDS1102]: the plotting units *)
(* ===================================================================== *)

Module DS1102Units.

Import Index.

Local Open Scope string_scope.

Definition lift {A B} (r : result A) (k : A -> result B) : result B :=
  match r with
  | Ok a => k a
  | Raise e => Raise e
  end.

(** [getTUnits(waveData)]: the conditions test [waveData[-1:0]], a slice
    of rows. *)
Definition getTUnits (waveData : array2) : result (string * Q) :=
  let probe := slice (-1) 0 (rows waveData) in
  lift (truth (less probe (1 # 1000000))) (fun c1 =>
  if c1 then Ok ("ns", 1000000000%Q)
  else
    lift (truth (less probe (1 # 1000))) (fun c2 =>
    if c2 then Ok ("$\mu$s", 1000000%Q)
    else
      lift (truth (less probe 1)) (fun c3 =>
      if c3 then Ok ("ms", 1000%Q)
      else Ok ("s", 1%Q)))).

(** [getVUnits(waveData, channel)] *)
Definition getVUnits (waveData : array2) (channel : Z) : result (string * Q) :=
  lift (column_at waveData channel) (fun col =>
  lift (max_of col) (fun m =>
  if negb (Qle_bool (2 # 10) m) then Ok ("mV", 1000%Q)
  else Ok ("V", 1%Q))).

End DS1102Units.

(* ===================================================================== *)
(** ** [class RigolDG1032]: the standard waveforms *)
(* ===================================================================== *)

Module DG1032Waves.

Import Generator.

(** A Python number: the code is Python 2, where [/] between two [int]s
    is floor division. *)
Inductive pynum : Type :=
| PInt (n : Z)
| PFloat (q : Q).

Definition to_float (x : pynum) : Q :=
  match x with
  | PInt n => inject_Z n
  | PFloat q => q
  end.

(** [x / y] *)
Definition py_div (x y : pynum) : result pynum :=
  if Qeq_bool (to_float y) 0 then Raise ZeroDivisionError
  else
    match x, y with
    | PInt a, PInt b => Ok (PInt (a / b))
    | _, _ => Ok (PFloat (to_float x / to_float y))
    end.

Section Methods.

Variable str_float : Q -> string.

Local Open Scope py_scope.
Local Open Scope string_scope.

(** [str(x)] *)
Definition str_num (x : pynum) : string :=
  match x with
  | PInt n => str_int n
  | PFloat q => str_float q
  end.

Definition lift {A} (r : result A) : M Gen A := fun g => (r, g).

Definition setSquareWave (channel : Z) (highV lowV period delay : pynum)
  : M Gen unit :=
  freq <- lift (py_div (PFloat 1) period) ;;
  let ampl := ((to_float highV - to_float lowV) / 1)%Q in
  let offset := ((to_float highV + to_float lowV) / 2)%Q in
  turns <- lift (py_div delay period) ;;
  let phase := (to_float turns * 360)%Q in
  let command := ":SOURCE" ++ str_int channel ++ ":APPL:SQU " ++ str_num freq
                   ++ "," ++ str_float ampl ++ "," ++ str_float offset
                   ++ "," ++ str_float phase in
  write command.

Definition setPulse (channel : Z) (highV lowV period duty delay : pynum)
  : M Gen unit :=
  freq <- lift (py_div (PFloat 1) period) ;;
  let ampl := ((to_float highV - to_float lowV) / 1)%Q in
  let offset := ((to_float highV + to_float lowV) / 2)%Q in
  turns <- lift (py_div delay period) ;;
  let phase := (to_float turns * 360)%Q in
  let command := ":SOURCE" ++ str_int channel ++ ":APPL:PULSE " ++ str_num freq
                   ++ "," ++ str_float ampl ++ "," ++ str_float offset
                   ++ "," ++ str_float phase in
  write command ;;
  let command := ":SOURCE" ++ str_int channel ++ ":FUNCTION:PULSE:DCYCLE "
                   ++ str_num duty in
  write command.

Definition setRamp (channel : Z) (period ampl offset phase symm : pynum)
  : M Gen unit :=
  freq <- lift (py_div (PFloat 1) period) ;;
  let command := ":SOURCE" ++ str_int channel ++ ":APPL:RAMP " ++ str_num freq
                   ++ "," ++ str_num ampl ++ "," ++ str_num offset
                   ++ "," ++ str_num phase in
  write command ;;
  let command := ":SOURCE" ++ str_int channel ++ ":FUNCTION:RAMP:SYMM "
                   ++ str_num symm in
  write command.

End Methods.

End DG1032Waves.

(* ===================================================================== *)
(** ** [GenerateArb.py]: editing the waveform *)
(* ===================================================================== *)

Module ArbWave.

Import Index GenerateArb.

(** The module-level array [wave], which the functions update in place. *)
Definition Wave := list Q.

(** [T = np.arange(nSteps)] and [wave = np.zeros(nSteps)] *)
Definition T : list Z := map Z.of_nat (seq 0 (Z.to_nat nSteps)).
Definition zeros : Wave := repeat 0%Q (Z.to_nat nSteps).

Local Open Scope py_scope.

Definition lift {A} (r : result A) : M Wave A := fun w => (r, w).

(** [t2step(t)]: [int(nSteps*t)] *)
Definition t2step (t : Q) : Z := trunc (inject_Z nSteps * t).

(** [getV(t)]: [b2V(wave[t2step(t)])] *)
Definition getV (t : Q) : M Wave Q :=
  wave <- gets (fun w => w) ;;
  b <- lift (getitem wave (t2step t)) ;;
  ret (b2V b).

(** [fillV(stepf, Vf)]: [wave[stepf:-1] = V2b(Vf)] *)
Definition fillV (stepf : Z) (Vf : Q) : M Wave unit :=
  modify (slice_fill stepf (-1) (V2b Vf)).

(** [wave[i] = x] *)
Definition assign (i : Z) (x : Q) : M Wave unit :=
  wave <- gets (fun w => w) ;;
  wave' <- lift (setitem wave i x) ;;
  modify (fun _ => wave').

(** [addRampSegment(ti, Vi, tf, Vf)], for voltages given as floats.  The
    divisor [f - i] is zero only when the slice [T[i:f]] is empty. *)
Definition addRampSegment (ti Vi tf Vf : Q) : M Wave unit :=
  let i := t2step ti in
  let f := t2step tf in
  let ramp := map (fun k => V2b (Vi + (Vf - Vi) * inject_Z (k - i)
                                        / inject_Z (f - i)))
                  (slice i f T) in
  wave <- gets (fun w => w) ;;
  wave' <- lift (slice_set i f ramp wave) ;;
  modify (fun _ => wave') ;;
  fillV f Vf.

(** [addStep(ti, Vi, Vf)] *)
Definition addStep (ti Vi Vf : Q) : M Wave unit :=
  let i := t2step ti in
  assign i (V2b Vi) ;;
  assign (i + 1) (V2b Vf) ;;
  fillV (i + 1) Vf.

End ArbWave.

(* ===================================================================== *)
(** ** [InstrumentControlScript.py]: choosing a generator *)
(* ===================================================================== *)

Module InstrumentControlScript.

Import Index.

Local Open Scope py_scope.
Local Open Scope string_scope.

(** The flag at the top of the script. *)
Definition verbose : bool := true.

(** What [print] was given; the state of these functions is the standard
    output, newest first. *)
Definition print (s : string) : M (list string) unit :=
  modify (fun out => s :: out).

Definition lift {A} (r : result A) : M (list string) A := fun out => (r, out).

(** [pat in s] *)
Fixpoint contains (pat s : string) : bool :=
  (prefix pat s
   || match s with
      | EmptyString => false
      | String _ s' => contains pat s'
      end)%bool.

(** [[n for n,s in enumerate(usb_as_strings) if pat in s]] *)
Definition locations (pat : string) (usb : list string) : list Z :=
  map fst (filter (fun p => contains pat (snd p))
                  (combine (map Z.of_nat (seq 0 (List.length usb))) usb)).

Definition getDG4162USBAddress (usb : list string) : M (list string) string :=
  let dg4_loc := locations "DG4" usb in
  (if (List.length dg4_loc =? 0)%nat then
     print "Trying to connect to a DG4162 function generator, but no function generator found in list of USB devices!"
   else if (1 <? List.length dg4_loc)%nat then
     print (nl ++ "More than one 'DG4' device was found, the first one will be used!")
   else ret tt) ;;
  loc <- lift (getitem dg4_loc 0) ;;
  dg4_address <- lift (getitem usb loc) ;;
  when verbose
       (print (nl ++ " " ++ nl ++ "Using this DG4162 function generator:" ++ nl) ;;
        print dg4_address) ;;
  ret dg4_address.

Definition getDG1032USBAddress (usb : list string) : M (list string) string :=
  let dg1_loc := locations "DG1" usb in
  (if (List.length dg1_loc =? 0)%nat then
     print "Trying to connect to a DG1032 function generator, but no function generator found in list of USB devices!"
   else if (1 <? List.length dg1_loc)%nat then
     print (nl ++ "More than one 'DG1' device was found, the first one will be used!")
   else ret tt) ;;
  loc <- lift (getitem dg1_loc 0) ;;
  dg1_address <- lift (getitem usb loc) ;;
  when verbose
       (print (nl ++ " " ++ nl ++ "Using this DG1032 function generator:" ++ nl
                 ++ dg1_address)) ;;
  ret dg1_address.

End InstrumentControlScript.

(* ===================================================================== *)
(** ** Vocabulary of the statements *)
(* ===================================================================== *)

Module ScopeSpec.

Import DS1102.

Local Open Scope string_scope.

(** A method maintains a relation between the object before and after. *)
Definition respects (R : Scope -> Scope -> Prop) {A} (c : M Scope A) : Prop :=
  forall s r s', c s = (r, s') -> R s s'.

(** The commands written between two states are all of one kind. *)
Definition wrote (P : string -> Prop) (s s' : Scope) : Prop :=
  exists new, sent s' = (new ++ sent s)%list /\ Forall P new.

(** The expected sample count is left as it was. *)
Definition kept (s s' : Scope) : Prop := nPoints s' = nPoints s.


(** Any command but the two that stop and resume the acquisition. *)
Definition nonctl (c : string) : Prop := c <> ":STOP" /\ c <> ":RUN".

(** The five byte counts of [getNPoints]. *)
Definition counts : list Z := [610; 8202; 16394; 524298; 1048586]%Z.

Section WithInstrument.

Variable py_float : string -> option Q.
Variable py_int : string -> option Z.
Variable dev : Device.

(** What [query] returns for a command written after [log]. *)
Definition reply (command : string) (log : list string) : string :=
  substring 0 (Z.to_nat 100) (dev (command :: log)).

(** The instrument gives the same reply to a command whenever asked. *)
Definition answers (command r : string) : Prop :=
  forall log, reply command log = r.

(** The channel [readWaveform] reads first, and whether it reads both. *)
Definition resolved (ch : pyarg) (c : Z) (both : bool) : Prop :=
  if upper (str ch) =? "BOTH" then c = 1%Z /\ both = true
  else py_int (str ch) = Some c /\ both = false.

(** What [readTrace] returns for a channel: the reply to the waveform
    query, cut to [n] bytes, without its 10-byte header. *)
Definition trace_of (c n : Z) (log : list string) : list Z :=
  skipn 10 (Np.frombuffer
              (substring 0 (Z.to_nat n)
                         (dev ((":WAV:DATA? CHAN" ++ str_int c) :: log)))).

Local Open Scope py_scope.

(** The last part of [readWaveform]: rescaling and packaging. *)
Definition decode (tData : list Q) (data data2 : list Z) (c : Z) (both : bool)
  : M Scope (list (list Q)) :=
  Vdata <- rescaleToVolts py_float dev data c ;;
  if both then
    Vdata2 <- rescaleToVolts py_float dev data2 2 ;;
    lift (Np.column_stack3 tData Vdata Vdata2)
  else
    lift (Np.column_stack2 tData Vdata).

(** The part of [readWaveform] that follows the choice of channel. *)
Definition acquire (tData : list Q) (c : Z) (both stopping : bool)
  : M Scope (list (list Q)) :=
  n <- attr nPoints ;;
  when (610 <? n)%Z (when stopping (write ":STOP")) ;;
  v <- gets verbose ;;
  when v (print (PText (nl ++ "Attempting to read " ++ str_int n
                          ++ " bytes from CH1..." ++ nl))) ;;
  data <- readTrace dev c ;;
  data2 <- (if both then readTrace dev 2 else ret []) ;;
  n <- attr nPoints ;;
  when (610 <? n)%Z (write ":RUN") ;;
  decode tData data data2 c both.

End WithInstrument.

End ScopeSpec.

Module GeneratorSpec.

Import Generator.

Local Open Scope string_scope.

(** The commands the upload loop writes, first point first. *)
Fixpoint upload_commands (num : Z) (val_list : list Z) (channel : Z)
  : list string :=
  match val_list with
  | [] => []
  | val :: rest =>
      (":SOUR" ++ str_int channel ++ ":DATA:VAL VOLATILE," ++ str_int num
         ++ "," ++ str_int val) :: upload_commands (num + 1) rest channel
  end.

End GeneratorSpec.

Module ScopeRuns.

Import DS1102.

Local Open Scope string_scope.

(** The division count [getNDevs] computes for a configuration, when it
    has one. *)
Definition nDevs_of (mode depth : string) (nChan : Z) (tDev : Q) : option Q :=
  if mode =? "NORMAL" then Some 12%Q
  else match devDict_of depth nChan with
       | Some d => dict_get d tDev
       | None => None
       end.

(** The time axis for a time/division [tS], [nDevs] divisions, [nData]
    samples and a trigger offset [off]. *)
Definition time_axis (tS nDevs : Q) (nData : Z) (off : Q) : list Q :=
  map (fun t => (t + off)%Q)
      (map (fun i => (- tS * nDevs / 2
                      + inject_Z (Z.of_nat i) * (tS * nDevs / inject_Z nData))%Q)
           (seq 0 (Z.to_nat nData))).

(** The queries of one [getTimeVec] call, newest first. *)
Definition getTimeVec_queries : list string :=
  [":ACQ:MEMDEPTH?"; ":WAV:POINTS:MODE?"; ":TIM:SCAL?"; ":TIM:OFFS?";
   ":TIM:SCAL?"; ":ACQ:MEMDEPTH?"; ":WAV:POINTS:MODE?"].

(** The state [getTimeVec] leaves. *)
Definition after_getTimeVec (m d : string) (N : Z) (q off v : Q) (s : Scope)
  : Scope :=
  let s_a := set_nPoints N (set_memDepth d
               (set_sent (":ACQ:MEMDEPTH?" :: ":WAV:POINTS:MODE?" :: sent s)
                  (set_acqMode m s))) in
  let s_b := set_tScale q (set_sent (":TIM:SCAL?" :: sent s_a) s_a) in
  let s_c := set_tOffs off (set_sent (":TIM:OFFS?" :: sent s_b) s_b) in
  let s_d := set_memDepth d
               (set_sent (":ACQ:MEMDEPTH?" :: ":WAV:POINTS:MODE?" :: ":TIM:SCAL?"
                            :: sent s_c)
                  (set_acqMode m (set_tScale q s_c))) in
  set_stdout (PNumber v :: stdout s_d) s_d.

Section WithInstrument.

Variable py_float : string -> option Q.
Variable dev : Device.

(** Channel [c]'s vertical offset and scale queries always get replies
    that parse, to [o] and to a scale [sc] that is not zero. *)
Definition channel_ready (c : Z) (o sc : Q) : Prop :=
  exists r_o r_s,
    ScopeSpec.answers dev (":CHAN" ++ str_int c ++ ":OFFS?") r_o /\
    py_float r_o = Some o /\
    ScopeSpec.answers dev (":CHAN" ++ str_int c ++ ":SCAL?") r_s /\
    py_float r_s = Some sc /\
    ~ (sc == 0)%Q.

(** The number of bytes the instrument returns to channel [c]'s waveform
    query after [log]. *)
Definition payload_length (c : Z) (log : list string) : nat :=
  String.length (dev ((":WAV:DATA? CHAN" ++ str_int c) :: log)).

End WithInstrument.

End ScopeRuns.

Module GeneratorRuns.

Import Generator.

Local Open Scope string_scope.

(** The progress lines the upload loop prints, first one first. *)
Fixpoint progress (num : Z) (val_list : list Z) : list printed :=
  match val_list with
  | [] => []
  | val :: rest =>
      ((if (num mod 50 =? 0)%Z
        then [PText ("Loading point " ++ str_int num ++ " with value "
                       ++ str_int val)]
        else []) ++ progress (num + 1) rest)%list
  end.

(** The point [loadVolatile] uploads for a voltage [v] of a vector with
    minimum [VMin] and amplitude [VAmpl]. *)
Definition code (bad_int : Z) (VMin VAmpl : Q) (pointRange : Z) (v : Q) : Z :=
  astype_int bad_int
    (np_round (np_mul (np_div (1 * (v - VMin)) VAmpl) (inject_Z pointRange))).

(** The message for vectors of different lengths. *)
Definition mismatch_message : printed :=
  PText ("Voltage and Time vectors for arbitrary waveform do not match!" ++ nl).

End GeneratorRuns.

(* ===================================================================== *)
(** ** Concrete instruments, for the examples *)
(* ===================================================================== *)

Module Bench.

Import DS1102.

Local Open Scope string_scope.

(** [float] and [int] on the strings the bench instruments reply with. *)
Definition bench_float (s : string) : option Q :=
  if s =? "1.000e-03" then Some (1 # 1000)
  else if s =? "3.000e-03" then Some (3 # 1000)
  else if s =? "0" then Some 0%Q
  else if s =? "1" then Some 1%Q
  else if s =? "2" then Some 2%Q
  else None.

Definition bench_int (s : string) : option Z :=
  if s =? "1" then Some 1%Z else if s =? "2" then Some 2%Z else None.

Definition bench_str_float (q : Q) : string :=
  (str_int (Qnum q) ++ "/" ++ str_int (Zpos (Qden q)))%string.

Fixpoint fill (n : nat) (c : ascii) : string :=
  match n with
  | O => EmptyString
  | S n' => String c (fill n' c)
  end.

(** The settings of a simulated oscilloscope: one fixed reply per query. *)
Record Settings : Type := mkSettings {
  mode : string;
  depth : string;
  tdiv : string;
  toff : string;
  off1 : string;
  sc1 : string;
  off2 : string;
  sc2 : string;
  disp : string;
  wav1 : string;
  wav2 : string
}.

Definition simulate (c : Settings) : Device := fun log =>
  match log with
  | [] => ""
  | cmd :: _ =>
      if cmd =? ":WAV:POINTS:MODE?" then mode c
      else if cmd =? ":ACQ:MEMDEPTH?" then depth c
      else if cmd =? ":TIM:SCAL?" then tdiv c
      else if cmd =? ":TIM:OFFS?" then toff c
      else if cmd =? ":CHAN1:OFFS?" then off1 c
      else if cmd =? ":CHAN1:SCAL?" then sc1 c
      else if cmd =? ":CHAN2:OFFS?" then off2 c
      else if cmd =? ":CHAN2:SCAL?" then sc2 c
      else if cmd =? ":CHAN1:DISP?" then disp c
      else if cmd =? ":WAV:DATA? CHAN1" then wav1 c
      else if cmd =? ":WAV:DATA? CHAN2" then wav2 c
      else ""
  end.

(** NORMAL acquisition, 1 ms/div, both channels on. *)
Definition normal_scope : Settings :=
  mkSettings "NORMAL" "LONG" "1.000e-03" "0" "0" "1" "1" "2" "ON"
             (fill 610 "130"%char) (fill 610 "A"%char).

(** RAW acquisition with normal memory depth: 8202 bytes per channel. *)
Definition raw_scope : Settings :=
  mkSettings "RAW" "NORMAL" "1.000e-03" "0" "0" "1" "1" "2" "ON"
             (fill (Z.to_nat 8202) "130"%char) (fill (Z.to_nat 8202) "A"%char).


(** A channel whose vertical scale reads zero. *)
Definition zero_scale_scope : Settings :=
  mkSettings "NORMAL" "LONG" "1.000e-03" "0" "0" "0" "1" "2" "ON"
             (fill 610 "130"%char) (fill 610 "A"%char).

(** An instrument that reports a displayed channel as [1]. *)
Definition numeric_disp_scope : Settings :=
  mkSettings "NORMAL" "LONG" "1.000e-03" "0" "0" "1" "1" "2" "1" "" "".

(** The object after [setNumChannels(n)] on a fresh connection. *)
Definition with_channels (n : Z) : Scope := snd (setNumChannels n init).




End Bench.

(* ===================================================================== *)
(** ** More concrete inputs, for the examples *)
(* ===================================================================== *)

Module Examples.

Import DS1102 Bench.

Local Open Scope string_scope.

(** RAW acquisition with normal memory depth, and a channel 1 that
    returns 100 bytes only. *)
Definition short_scope : Settings :=
  mkSettings "RAW" "NORMAL" "1.000e-03" "0" "0" "1" "1" "2" "ON"
             (fill 100 "130"%char) (fill 100 "A"%char).

(** A list of USB resources with a scope and a DG1032 generator. *)
Definition usb_list : list string :=
  ["USB0::0x1AB1::0x0588::DS1ET000000000::INSTR";
   "USB0::0x1AB1::0x0642::DG1ZA000000000::INSTR"].

(** A wave of [nSteps] samples, all zero. *)
Definition flat_wave : ArbWave.Wave := ArbWave.zeros.

End Examples.

(* ===================================================================== *)
(** ** Facts about the oscilloscope methods *)
(* ===================================================================== *)

Module ScopeFacts.

Import DS1102 ScopeSpec.

Local Open Scope string_scope.

Tactic Notation "py_unfold" :=
  cbv beta iota zeta delta
    [bind ret raise gets modify attr local convert when lift print write read query].
Tactic Notation "py_unfold" "in" hyp(H) :=
  cbv beta iota zeta delta
    [bind ret raise gets modify attr local convert when lift print write read query]
    in H.
Tactic Notation "py_fields" :=
  cbn [sent stdout verbose nChannels nPoints tScale tOffs acqMode memDepth
       set_sent set_stdout set_verbose set_nChannels set_nPoints set_tScale
       set_tOffs set_acqMode set_memDepth fst snd].
Tactic Notation "py_fields" "in" hyp(H) :=
  cbn [sent stdout verbose nChannels nPoints tScale tOffs acqMode memDepth
       set_sent set_stdout set_verbose set_nChannels set_nPoints set_tScale
       set_tOffs set_acqMode set_memDepth fst snd] in H.
Tactic Notation "py_simpl" := py_unfold; py_fields.
Tactic Notation "py_simpl" "in" hyp(H) := py_unfold in H; py_fields in H.

(** *** Relations that every step of a method maintains *)

Section Frame.

Variable R : Scope -> Scope -> Prop.
Hypothesis R_refl : forall s, R s s.
Hypothesis R_trans : forall a b c, R a b -> R b c -> R a c.

Lemma respects_ret {A} (a : A) : respects R (ret a).
Proof. intros s r s' H. inversion H. apply R_refl. Qed.

Lemma respects_raise {A} e : respects R (@raise Scope A e).
Proof. intros s r s' H. inversion H. apply R_refl. Qed.

Lemma respects_bind {A B} (c : M Scope A) (k : A -> M Scope B) :
  respects R c -> (forall a, respects R (k a)) -> respects R (bind c k).
Proof.
  intros Hc Hk s r s' H. unfold bind in H.
  destruct (c s) as [[a | e] s1] eqn:E.
  - eapply R_trans; [eapply Hc, E | eapply Hk, H].
  - inversion H; subst. eapply Hc, E.
Qed.

Lemma respects_gets {A} (f : Scope -> A) : respects R (gets f).
Proof. intros s r s' H. inversion H. apply R_refl. Qed.

Lemma respects_attr {A} (f : Scope -> option A) : respects R (attr f).
Proof.
  intros s r s' H. unfold attr in H.
  destruct (f s); inversion H; apply R_refl.
Qed.

Lemma respects_local {A} (v : option A) : respects R (local v).
Proof. destruct v; [apply respects_ret | apply respects_raise]. Qed.

Lemma respects_convert {A} (v : option A) : respects R (convert v).
Proof. destruct v; [apply respects_ret | apply respects_raise]. Qed.

Lemma respects_lift {A} (r : result A) : respects R (lift r).
Proof. intros s r' s' H. inversion H. apply R_refl. Qed.

Lemma respects_when b (c : M Scope unit) : respects R c -> respects R (when b c).
Proof. destruct b; [trivial | intros _; apply respects_ret]. Qed.

Lemma respects_modify f : (forall s, R s (f s)) -> respects R (modify f).
Proof. intros Hf s r s' H. inversion H. apply Hf. Qed.

Lemma respects_read (dev : Device) n : respects R (read dev n).
Proof. apply respects_gets. Qed.

End Frame.

(** Decomposes a method body along its binds, conditionals and matches. *)
Ltac frame_step :=
  match goal with
  | |- respects _ (bind _ _) => apply respects_bind; [assumption | | intros ?]
  | |- respects _ (ret _) => apply respects_ret; assumption
  | |- respects _ (raise _) => apply respects_raise; assumption
  | |- respects _ (gets _) => apply respects_gets; assumption
  | |- respects _ (attr _) => apply respects_attr; assumption
  | |- respects _ (local _) => apply respects_local; assumption
  | |- respects _ (convert _) => apply respects_convert; assumption
  | |- respects _ (lift _) => apply respects_lift; assumption
  | |- respects _ (read _ _) => apply respects_read; assumption
  | |- respects _ (when _ _) => apply respects_when; [assumption | ]
  | |- respects _ (if ?b then _ else _) => destruct b
  | |- respects _ (match ?x with _ => _ end) => destruct x
  | |- respects _ (let '(_, _) := ?x in _) => destruct x
  end.

Lemma wrote_refl P s : wrote P s s.
Proof. exists []. split; [reflexivity | constructor]. Qed.

Lemma wrote_trans P a b c : wrote P a b -> wrote P b c -> wrote P a c.
Proof.
  intros [n1 [E1 F1]] [n2 [E2 F2]]. exists (n2 ++ n1)%list. split.
  - rewrite E2, E1. apply app_assoc.
  - apply Forall_app. split; assumption.
Qed.

Lemma wrote_write P command : P command -> respects (wrote P) (write command).
Proof.
  intros HP. apply respects_modify. intros s. exists [command].
  split; [reflexivity | repeat constructor; exact HP].
Qed.


Lemma wrote_set P (f : Scope -> Scope) :
  (forall s, sent (f s) = sent s) -> respects (wrote P) (modify f).
Proof.
  intros Hf. apply respects_modify. intros s. exists [].
  split; [apply Hf | constructor].
Qed.

Lemma kept_refl s : kept s s.
Proof. reflexivity. Qed.

Lemma kept_trans a b c : kept a b -> kept b c -> kept a c.
Proof. unfold kept; congruence. Qed.

Lemma kept_set (f : Scope -> Scope) :
  (forall s, nPoints (f s) = nPoints s) -> respects kept (modify f).
Proof. intros Hf. apply respects_modify. exact Hf. Qed.

(** *** Lists, arrays and command logs *)


Lemma nonctl_chan x : nonctl (":CHAN" ++ x).
Proof. split; cbn; discriminate. Qed.










Lemma nPoints_of_counts mode depth nCh v :
  nPoints_of mode depth nCh = Some v -> In v counts.
Proof.
  unfold nPoints_of, counts.
  repeat match goal with
         | |- context [if ?b then _ else _] => destruct b
         end; intros H; inversion H; subst; simpl; tauto.
Qed.

(** The time axis has as many points as there are data bytes. *)
Lemma arange_span_len (start stop X : Q) (n : Z) :
  (stop - start == X)%Q ->
  Qeq_bool (X / inject_Z n) 0 = false ->
  Np.arange_len start stop (X / inject_Z n) = Z.to_nat n.
Proof.
  intros Hspan Hz. unfold Np.arange_len.
  assert (Hne : ~ (X / inject_Z n == 0)%Q).
  { intros E. apply Qeq_bool_iff in E. congruence. }
  assert (HX : ~ (X == 0)%Q).
  { intros E. apply Hne. rewrite E. unfold Qdiv. apply Qmult_0_l. }
  assert (Hn : ~ (inject_Z n == 0)%Q).
  { intros E. apply Hne. rewrite E. unfold Qdiv.
    change (/ 0)%Q with 0%Q. apply Qmult_0_r. }
  assert (E : ((stop - start) / (X / inject_Z n) == inject_Z n)%Q).
  { rewrite Hspan. field. split; assumption. }
  rewrite (Qceiling_comp _ _ E). rewrite Qceiling_Z. reflexivity.
Qed.

(** *** The methods *)

Section WithInstrument.

#[local] Set Default Proof Using "Type".

Variable py_float : string -> option Q.
Variable py_int : string -> option Z.
Variable dev : Device.

Local Abbreviation reply := (ScopeSpec.reply dev).
Local Abbreviation answers := (ScopeSpec.answers dev).
Local Abbreviation resolved := (ScopeSpec.resolved py_int).
Local Abbreviation trace_of := (ScopeSpec.trace_of dev).
Local Abbreviation decode := (ScopeSpec.decode py_float dev).
Local Abbreviation acquire := (ScopeSpec.acquire py_float dev).


Lemma rescaleToVolts_wrote data c :
  respects (wrote nonctl) (rescaleToVolts py_float dev data c).
Proof.
  assert (R1 := wrote_refl nonctl).
  assert (R2 := wrote_trans nonctl).
  unfold rescaleToVolts, getVOffset, getVScale, query.
  repeat first
    [ frame_step
    | apply wrote_write; apply nonctl_chan
    | apply wrote_set; intros; reflexivity ].
Qed.

Lemma rescaleToVolts_kept data c :
  respects kept (rescaleToVolts py_float dev data c).
Proof.
  assert (R1 := kept_refl).
  assert (R2 := kept_trans).
  unfold rescaleToVolts, getVOffset, getVScale, query, write.
  repeat first [ frame_step | apply kept_set; intros; reflexivity ].
Qed.

Lemma readTrace_run c n s :
  nPoints s = Some n ->
  exists s',
    readTrace dev c s = (Ok (trace_of c n (sent s)), s') /\
    sent s' = (":WAV:DATA? CHAN" ++ str_int c) :: sent s /\
    nPoints s' = Some n /\ verbose s' = verbose s.
Proof.
  intros Hn. unfold readTrace. py_simpl. rewrite Hn. py_simpl.
  destruct (verbose s) eqn:Ev; py_simpl; eexists; repeat split; py_fields. all: solve [assumption | reflexivity].
Qed.

Lemma readWaveform_unfold ch stopping s :
  readWaveform py_float py_int dev ch stopping s =
  match getTimeVec py_float dev s with
  | (Raise e, s1) => (Raise e, s1)
  | (Ok tData, s1) =>
      if upper (str ch) =? "BOTH" then acquire tData 1 true stopping s1
      else match py_int (str ch) with
           | Some c => acquire tData c false stopping s1
           | None => (Raise ValueError, s1)
           end
  end.
Proof.
  unfold readWaveform. unfold bind at 1.
  destruct (getTimeVec py_float dev s) as [[tData | e] s1]; [| reflexivity].
  unfold bind at 1.
  destruct (upper (str ch) =? "BOTH"); [reflexivity |].
  unfold bind at 1. destruct (py_int (str ch)); reflexivity.
Qed.

(** [readWaveform] up to the resume decision: what was written, and what
    is decoded afterwards. *)
Lemma acquire_run tData c both stopping s1 r s' n :
  nPoints s1 = Some n ->
  acquire tData c both stopping s1 = (r, s') ->
  let stop := (if ((610 <? n)%Z && stopping)%bool then [":STOP"] else [])%list in
  let log1 := (stop ++ sent s1)%list in
  let cmd1 := (":WAV:DATA? CHAN" ++ str_int c)%string in
  exists s6,
    nPoints s6 = Some n /\
    sent s6 = ((if (610 <? n)%Z then [":RUN"] else [])
                 ++ (if both then [":WAV:DATA? CHAN2"] else [])
                 ++ [cmd1] ++ log1)%list /\
    decode tData (trace_of c n log1)
           (if both then trace_of 2 n (cmd1 :: log1) else []) c both s6 = (r, s').
Proof.
  intros En H stop log1 cmd1. unfold ScopeSpec.acquire in H.
  unfold bind at 1 in H. unfold attr at 1 in H. rewrite En in H.
  (* the stop decision *)
  unfold bind at 1 in H.
  assert (Hstop : exists s2,
    when (610 <? n)%Z (when stopping (write ":STOP")) s1 = (Ok tt, s2) /\
    sent s2 = log1 /\ nPoints s2 = Some n /\ verbose s2 = verbose s1).
  { subst log1 stop. destruct (610 <? n)%Z, stopping; py_simpl; eexists;
      repeat split; py_fields; solve [assumption | reflexivity]. }
  destruct Hstop as (s2 & E2 & S2 & N2 & V2). rewrite E2 in H. clear E2.
  (* the verbose message *)
  unfold bind at 1 in H. unfold gets at 1 in H.
  unfold bind at 1 in H.
  assert (Hmsg : forall p, exists s3,
    when (verbose s2) (print p) s2 = (Ok tt, s3) /\
    sent s3 = sent s2 /\ nPoints s3 = Some n).
  { intros p. destruct (verbose s2); py_simpl; eexists;
      repeat split; py_fields; solve [assumption | reflexivity]. }
  match type of H with context [when (verbose s2) (print ?p) s2] =>
    destruct (Hmsg p) as (s3 & E3 & S3 & N3) end.
  rewrite E3 in H. clear E3 Hmsg.
  (* the reads *)
  unfold bind at 1 in H.
  destruct (readTrace_run c n s3 N3) as (s4 & E4 & S4 & N4 & _).
  rewrite E4 in H. clear E4. rewrite S3, S2 in S4. rewrite S3, S2 in H.
  unfold bind at 1 in H.
  assert (Hread2 : exists s5,
    (if both then readTrace dev 2 else ret []) s4
      = (Ok (if both then trace_of 2 n (cmd1 :: log1) else []), s5) /\
    sent s5 = ((if both then [":WAV:DATA? CHAN2"] else []) ++ sent s4)%list /\
    nPoints s5 = Some n).
  { destruct both.
    - destruct (readTrace_run 2 n s4 N4) as (s5 & E5 & S5 & N5 & _).
      rewrite S4 in E5. exists s5. repeat split; assumption.
    - exists s4. repeat split; assumption. }
  destruct Hread2 as (s5 & E5 & S5 & N5). rewrite E5 in H. clear E5.
  (* the resume decision *)
  unfold bind at 1 in H. unfold attr at 1 in H. rewrite N5 in H.
  unfold bind at 1 in H.
  assert (Hrun : exists s6,
    when (610 <? n)%Z (write ":RUN") s5 = (Ok tt, s6) /\
    sent s6 = ((if (610 <? n)%Z then [":RUN"] else []) ++ sent s5)%list /\
    nPoints s6 = Some n).
  { destruct (610 <? n)%Z; py_simpl; eexists;
      repeat split; py_fields; solve [assumption | reflexivity]. }
  destruct Hrun as (s6 & E6 & S6 & N6). rewrite E6 in H. clear E6.
  exists s6. repeat split; [assumption | | exact H].
  rewrite S6, S5, S4. reflexivity.
Qed.

Lemma decode_wrote tData data data2 c both :
  respects (wrote nonctl) (decode tData data data2 c both).
Proof.
  assert (R1 := wrote_refl nonctl).
  assert (R2 := wrote_trans nonctl).
  unfold ScopeSpec.decode.
  repeat first [ frame_step | apply rescaleToVolts_wrote ].
Qed.

Lemma decode_kept tData data data2 c both :
  respects kept (decode tData data data2 c both).
Proof.
  assert (R1 := kept_refl).
  assert (R2 := kept_trans).
  unfold ScopeSpec.decode.
  repeat first [ frame_step | apply rescaleToVolts_kept ].
Qed.

Lemma query_run command s :
  query dev command s = (Ok (reply command (sent s)), set_sent (command :: sent s) s).
Proof. reflexivity. Qed.

Lemma getAcqMode_run s :
  getAcqMode dev s =
  (Ok (reply ":WAV:POINTS:MODE?" (sent s)),
   set_acqMode (reply ":WAV:POINTS:MODE?" (sent s))
               (set_sent (":WAV:POINTS:MODE?" :: sent s) s)).
Proof. reflexivity. Qed.

Lemma getMemDepth_run s :
  getMemDepth dev s =
  (Ok (reply ":ACQ:MEMDEPTH?" (sent s)),
   set_memDepth (reply ":ACQ:MEMDEPTH?" (sent s))
               (set_sent (":ACQ:MEMDEPTH?" :: sent s) s)).
Proof. reflexivity. Qed.

Lemma getTScale_run s q :
  py_float (reply ":TIM:SCAL?" (sent s)) = Some q ->
  getTScale py_float dev s =
  (Ok tt, set_tScale q (set_sent (":TIM:SCAL?" :: sent s) s)).
Proof.
  intros H. unfold getTScale, bind. rewrite query_run.
  rewrite H. reflexivity.
Qed.














(** C1, as amended.  For every raw byte [b] (0-255), every queried
    vertical offset [o] and every queried vertical scale [sc] other than
    zero, [rescaleToVolts] returns and maps [b] to
    [((255 - b) - 130 - o/sc*25) / 25 * sc]; for [b = 130] and [o = 0] that
    is [-0.2 * sc]. *)
Theorem rescaleToVolts_formula (b : Z) (o sc : Q) :
  (0 <= b <= 255)%Z -> ~ (sc == 0)%Q ->
  (volts o sc b == ((255 - inject_Z b) - 130 - o / sc * 25) / 25 * sc)%Q /\
  (forall data c s r_o r_s,
      reply (":CHAN" ++ str_int c ++ ":OFFS?") (sent s) = r_o ->
      py_float r_o = Some o ->
      reply (":CHAN" ++ str_int c ++ ":SCAL?")
            ((":CHAN" ++ str_int c ++ ":OFFS?")%string :: sent s) = r_s ->
      py_float r_s = Some sc ->
      exists s', rescaleToVolts py_float dev data c s = (Ok (map (volts o sc) data), s')) /\
  (volts 0 sc 130 == - (2 # 10) * sc)%Q.
Proof.
  intros Hb Hs.
  assert (Hw : forall z, (0 <= z <= 255)%Z ->
             Np.int16 (Np.int16 (z * -1) + 255) = (255 - z)%Z).
  { intros z Hz. unfold Np.int16.
    rewrite (Z.mod_small (z * -1 + 32768)) by lia.
    rewrite Z.mod_small by lia. lia. }
  split; [| split].
  - unfold volts. rewrite Hw by exact Hb.
    unfold Zminus. rewrite inject_Z_plus, inject_Z_opp.
    change (inject_Z 255) with 255%Q. field. exact Hs.
  - intros data c s r_o r_s Ho Po Hsc Ps.
    unfold rescaleToVolts, getVOffset, getVScale.
    unfold bind at 1 2. rewrite query_run. rewrite Ho, Po. py_simpl.
    change (substring 0 (Z.to_nat 100)
              (dev ((":CHAN" ++ str_int c ++ ":SCAL?")
                      :: (":CHAN" ++ str_int c ++ ":OFFS?") :: sent s)%string))
      with (reply (":CHAN" ++ str_int c ++ ":SCAL?")
                  ((":CHAN" ++ str_int c ++ ":OFFS?")%string :: sent s)).
    rewrite Hsc, Ps.
    destruct (Qeq_bool sc 0) eqn:Ez.
    + apply Qeq_bool_iff in Ez. contradiction.
    + eexists. reflexivity.
  - unfold volts. rewrite Hw by lia. change (inject_Z (255 - 130)) with 125%Q.
    field. exact Hs.
Qed.

(** C9, as amended.  [getNumChannels] writes [":CHAN1:DISP?"] twice and
    nothing else.  When both replies are the same string [r], it sets and
    returns 2 if [r] is ['ON'], 0 if [r] is ['OFF'], and 1 for any other
    [r]; channel 2 is never asked. *)
Theorem getNumChannels_same_reply nCh s r :
  reply ":CHAN1:DISP?" (sent s) = r ->
  reply ":CHAN1:DISP?" (":CHAN1:DISP?" :: sent s) = r ->
  exists s',
    getNumChannels dev nCh s
      = (Ok (if r =? "ON" then 2%Z else if r =? "OFF" then 0%Z else 1%Z), s') /\
    nChannels s' = Some (if r =? "ON" then 2%Z else if r =? "OFF" then 0%Z else 1%Z) /\
    sent s' = ":CHAN1:DISP?" :: ":CHAN1:DISP?" :: sent s.
Proof.
  intros H1 H2.
  unfold getNumChannels. unfold bind at 1. rewrite query_run.
  unfold bind at 1. rewrite query_run. py_fields.
  rewrite H1, H2.
  destruct (r =? "ON"); [| destruct (r =? "OFF")];
    py_simpl; eexists; repeat split.
Qed.

(** C2.  For every configuration whose acquisition mode reads [NORMAL],
    whatever the memory depth replies and whatever the channel count is,
    [getNPoints] sets the expected sample count to 610 and [getNDevs]
    returns 12. *)
Theorem normal_mode_counts s n rt q :
  answers ":WAV:POINTS:MODE?" "NORMAL" ->
  answers ":TIM:SCAL?" rt -> py_float rt = Some q ->
  nChannels s = Some n ->
  (exists s', getNPoints dev s = (Ok tt, s') /\ nPoints s' = Some 610%Z) /\
  (exists s', getNDevs py_float dev s = (Ok 12%Q, s')).
Proof.
  intros Hm Ht Hq Hn. split.
  - unfold getNPoints. unfold bind at 1. rewrite getAcqMode_run.
    unfold bind at 1. rewrite getMemDepth_run. rewrite Hm.
    py_simpl. rewrite Hn. py_simpl. eexists; split; reflexivity.
  - unfold getNDevs. unfold bind at 1.
    rewrite (getTScale_run s q) by (rewrite Ht; exact Hq).
    unfold bind at 1. unfold attr at 1. py_fields.
    unfold bind at 1. rewrite getAcqMode_run.
    unfold bind at 1. rewrite getMemDepth_run. rewrite Hm.
    py_simpl. rewrite Hn. py_simpl. eexists; reflexivity.
Qed.

(** C4, on the code.  For every triple that matches one of the five cases
    of [getNPoints] the count is set to one of 610, 8202, 16394, 524298,
    1048586.  For every other triple the local [nPoints] is never
    assigned: the method ends in [UnboundLocalError] and leaves the
    attribute as it was. *)
Theorem getNPoints_resolution s m d n :
  answers ":WAV:POINTS:MODE?" m ->
  answers ":ACQ:MEMDEPTH?" d ->
  nChannels s = Some n ->
  match nPoints_of m d n with
  | Some v =>
      In v counts /\
      exists s', getNPoints dev s = (Ok tt, s') /\ nPoints s' = Some v
  | None =>
      exists s',
        getNPoints dev s = (Raise UnboundLocalError, s') /\
        nPoints s' = nPoints s
  end.
Proof.
  intros Hm Hd Hn.
  destruct (nPoints_of m d n) as [v |] eqn:Ev;
    [split; [eapply nPoints_of_counts, Ev |] |];
    unfold getNPoints; unfold bind at 1; rewrite getAcqMode_run;
    unfold bind at 1; rewrite getMemDepth_run; rewrite Hm, Hd;
    py_simpl; rewrite Hn; py_simpl; rewrite Ev; py_simpl;
    eexists; split; reflexivity.
Qed.

End WithInstrument.

(** *** The statements above at concrete instruments *)

Import Bench.

Lemma rescaleToVolts_formula_witness :
  (volts 0 1 130 == ((255 - inject_Z 130) - 130 - 0 / 1 * 25) / 25 * 1)%Q /\
  (exists s',
      rescaleToVolts bench_float (simulate normal_scope) [130%Z] 1 init
        = (Ok (map (volts 0 1) [130%Z]), s')) /\
  (volts 0 1 130 == - (2 # 10) * 1)%Q.
Proof.
  destruct (rescaleToVolts_formula bench_float (simulate normal_scope) 130 0 1)
    as (H1 & H2 & H3).
  - lia.
  - intros H. discriminate H.
  - split; [exact H1 |]. split; [| exact H3].
    apply (H2 [130%Z] 1%Z init "0" "1"); reflexivity.
Defined.

(** C1, where the claim fails: a vertical scale that reads zero.  The
    division [Voffs/Vscale] raises, and no voltage is returned. *)
Lemma rescaleToVolts_zero_scale :
  bench_float (sc1 zero_scale_scope) = Some 0%Q /\
  fst (rescaleToVolts bench_float (simulate zero_scale_scope) [130%Z] 1 init)
    = Raise ZeroDivisionError.
Proof. split; reflexivity. Qed.

Lemma normal_mode_counts_witness :
  (exists s',
      getNPoints (simulate normal_scope) (with_channels 2) = (Ok tt, s') /\
      nPoints s' = Some 610%Z) /\
  (exists s',
      getNDevs bench_float (simulate normal_scope) (with_channels 2)
        = (Ok 12%Q, s')).
Proof.
  apply (normal_mode_counts bench_float (simulate normal_scope)
           (with_channels 2) 2 "1.000e-03" (1 # 1000)).
  - intros log. reflexivity.
  - intros log. reflexivity.
  - reflexivity.
  - reflexivity.
Defined.



Lemma getNPoints_resolution_witness :
  exists s',
    getNPoints (simulate raw_scope) (with_channels 0)
      = (Raise UnboundLocalError, s') /\
    nPoints s' = nPoints (with_channels 0).
Proof.
  apply (getNPoints_resolution (simulate raw_scope) (with_channels 0)
           "RAW" "NORMAL" 0).
  - intros log. reflexivity.
  - intros log. reflexivity.
  - reflexivity.
Defined.





Lemma getNumChannels_same_reply_witness :
  exists s',
    getNumChannels (simulate normal_scope) 2 init = (Ok 2%Z, s') /\
    nChannels s' = Some 2%Z /\
    sent s' = [":CHAN1:DISP?"; ":CHAN1:DISP?"].
Proof.
  apply (getNumChannels_same_reply (simulate normal_scope) 2 init "ON");
    reflexivity.
Defined.

(** C9, where the claim fails: an instrument that answers [1] to both
    display queries.  The replies are equal, and the count is 1. *)
Lemma getNumChannels_numeric_reply :
  reply (simulate numeric_disp_scope) ":CHAN1:DISP?" [] = "1" /\
  reply (simulate numeric_disp_scope) ":CHAN1:DISP?" [":CHAN1:DISP?"] = "1" /\
  fst (getNumChannels (simulate numeric_disp_scope) 2 init) = Ok 1%Z /\
  nChannels (snd (getNumChannels (simulate numeric_disp_scope) 2 init)) = Some 1%Z.
Proof. repeat split. Qed.

End ScopeFacts.

(* ===================================================================== *)
(** ** Facts about rounding *)
(* ===================================================================== *)

Module NpFacts.

Lemma round_half_even_near (x : Q) :
  (Qabs (inject_Z (Np.round_half_even x) - x) <= 1 # 2)%Q.
Proof.
  unfold Np.round_half_even.
  pose proof (Qfloor_le x) as Hlo.
  pose proof (Qlt_floor x) as Hhi.
  rewrite inject_Z_plus in Hhi.
  change (inject_Z 1) with 1%Q in Hhi.
  set (f := Qfloor x) in *.
  apply Qabs_Qle_condition.
  destruct (Qcompare_spec (x - inject_Z f) (1 # 2)) as [He | Hl | Hg].
  - destruct (Z.even f); [| rewrite inject_Z_plus; change (inject_Z 1) with 1%Q]; lra.
  - lra.
  - rewrite inject_Z_plus; change (inject_Z 1) with 1%Q; lra.
Qed.

(** Rounding keeps a value between two integers between them. *)
Lemma round_half_even_between (x : Q) (lo hi : Z) :
  (inject_Z lo <= x)%Q -> (x <= inject_Z hi)%Q ->
  (lo <= Np.round_half_even x <= hi)%Z.
Proof.
  intros Hlo Hhi.
  pose proof (round_half_even_near x) as H.
  apply Qabs_Qle_condition in H. destruct H as [H1 H2].
  set (r := Np.round_half_even x) in *. clearbody r.
  split.
  - assert (Hlt : (inject_Z (lo - 1) < inject_Z r)%Q).
    { unfold Z.sub. rewrite inject_Z_plus, inject_Z_opp.
      change (inject_Z 1) with 1%Q. lra. }
    rewrite <- Zlt_Qlt in Hlt. lia.
  - assert (Hlt : (inject_Z r < inject_Z (hi + 1))%Q).
    { rewrite inject_Z_plus. change (inject_Z 1) with 1%Q. lra. }
    rewrite <- Zlt_Qlt in Hlt. lia.
Qed.

End NpFacts.

(* ===================================================================== *)
(** ** Facts about the arbitrary-waveform loaders *)
(* ===================================================================== *)

Module GeneratorFacts.

Import Generator GeneratorSpec NpFacts.

Local Open Scope string_scope.

Lemma fold_max_le (l : list Q) (x : Q) :
  (x <= fold_left Qmax l x)%Q /\ Forall (fun v => (v <= fold_left Qmax l x)%Q) l.
Proof.
  revert x. induction l as [| y l IH]; intros x; simpl.
  - split; [apply Qle_refl | constructor].
  - destruct (IH (Qmax x y)) as [H1 H2]. split; [| constructor; [| exact H2]].
    + eapply Qle_trans; [apply Q.le_max_l | exact H1].
    + eapply Qle_trans; [apply Q.le_max_r | exact H1].
Qed.

Lemma fold_min_le (l : list Q) (x : Q) :
  (fold_left Qmin l x <= x)%Q /\ Forall (fun v => (fold_left Qmin l x <= v)%Q) l.
Proof.
  revert x. induction l as [| y l IH]; intros x; simpl.
  - split; [apply Qle_refl | constructor].
  - destruct (IH (Qmin x y)) as [H1 H2]. split; [| constructor; [| exact H2]].
    + eapply Qle_trans; [exact H1 | apply Q.le_min_l].
    + eapply Qle_trans; [exact H1 | apply Q.le_min_r].
Qed.

Lemma amin_amax_bounds v0 V' :
  Forall (fun v => (amin v0 V' <= v)%Q /\ (v <= amax v0 V')%Q) (v0 :: V').
Proof.
  unfold amin, amax.
  destruct (fold_max_le V' v0) as [M0 M]. destruct (fold_min_le V' v0) as [m0 m].
  constructor; [split; assumption |].
  rewrite Forall_forall in *. intros v Hv. split; [apply m | apply M]; exact Hv.
Qed.

Section WithBuiltins.

#[local] Set Default Proof Using "Type".

Variable str_float : Q -> string.
Variable bad_int : Z.

Lemma upload_run val_list : forall num channel g,
  exists g',
    upload num val_list channel g = (Ok tt, g') /\
    sent g' = (rev (upload_commands num val_list channel) ++ sent g)%list.
Proof.
  induction val_list as [| val rest IH]; intros num channel g.
  - exists g. split; reflexivity.
  - cbn [upload upload_commands].
    unfold bind at 1.
    set (p := PText _).
    assert (Hp : exists g1, when (num mod 50 =? 0)%Z (print p) g = (Ok tt, g1)
                            /\ sent g1 = sent g).
    { destruct (num mod 50 =? 0)%Z; eexists; split; reflexivity. }
    destruct Hp as (g1 & E1 & S1). rewrite E1.
    unfold bind at 1. unfold setVolatileVal, write, modify.
    destruct (IH (num + 1)%Z channel
                 (mkGen ((":SOUR" ++ str_int channel ++ ":DATA:VAL VOLATILE,"
                            ++ str_int num ++ "," ++ str_int val) :: sent g1)
                        (stdout g1))) as (g' & E & S).
    exists g'. split; [exact E |].
    rewrite S. cbn [sent rev]. rewrite S1, <- app_assoc. reflexivity.
Qed.

Lemma loadVolatile_run t0 t1 t v0 V' channel pointRange g :
  ~ (t1 - t0 == 0)%Q ->
  let VMax := amax v0 V' in
  let VMin := amin v0 V' in
  let val_list := quantize bad_int pointRange (rescale VMin (VMax - VMin) (v0 :: V')) in
  exists g',
    loadVolatile str_float bad_int (t0 :: t1 :: t) (v0 :: V') channel pointRange g
      = (Ok tt, g') /\
    exists arb points,
      sent g' = (rev (upload_commands 1 val_list channel) ++ [points; arb] ++ sent g)%list.
Proof.
  intros Hdt VMax VMin val_list.
  unfold loadVolatile. unfold bind at 1.
  set (p := PText _).
  assert (Hp : forall b, exists g1, when b (print p) g = (Ok tt, g1) /\ sent g1 = sent g).
  { intros []; eexists; split; reflexivity. }
  match goal with |- context [when ?b (print p) g] =>
    destruct (Hp b) as (g1 & E1 & S1) end.
  rewrite E1.
  destruct (Qeq_bool (t1 - t0) 0) eqn:Ez.
  { apply Qeq_bool_iff in Ez. contradiction. }
  unfold bind at 1. unfold print at 1, modify at 1.
  unfold bind at 1. unfold setArbitrary, write at 1, modify at 1.
  unfold bind at 1. unfold setVolatilePoints, write at 1, modify at 1.
  cbn [sent stdout].
  match goal with |- context [upload 1 ?vl channel ?g0] =>
    destruct (upload_run vl 1%Z channel g0) as (g' & E & S) end.
  exists g'. split; [exact E |].
  eexists _, _. rewrite S. cbn [sent]. rewrite S1. reflexivity.
Qed.

Lemma astype_int_round (x : Q) :
  astype_int bad_int (np_round (Fin x)) = Np.round_half_even x.
Proof.
  unfold np_round, astype_int, Np.round.
  destruct (Qle_bool 0 (inject_Z (Np.round_half_even x)));
    [apply Qfloor_Z | apply Qceiling_Z].
Qed.

Lemma unit_fraction (a d : Q) :
  (0 <= a)%Q -> (a <= d)%Q -> (0 < d)%Q -> (0 <= a / d)%Q /\ (a / d <= 1)%Q.
Proof.
  intros Ha Had Hd. split.
  - apply Qle_shift_div_l; [exact Hd | lra].
  - apply Qle_shift_div_r; [exact Hd | lra].
Qed.

(** C10.  With [V] a non-empty voltage vector: when [V.max() == V.min()]
    the divisor [VAmpl] of the rescaling step [(V - VMin)/VAmpl] is zero and
    every rescaled element is [0/0], so that every value handed to the
    upload loop is the cast of a [nan] and the points written afterwards
    carry that value; when [V.max() > V.min()] every rescaled element is a
    number of [[0,1]] and, for a non-negative [pointRange], every quantized
    value lies in [[0, pointRange]].  Both classes' [loadVolatile] behave
    so. *)
Theorem loadVolatile_rescaling (v0 : Q) (V' : list Q) (pointRange : Z) :
  let V := v0 :: V' in
  let VMax := amax v0 V' in
  let VMin := amin v0 V' in
  let VAmpl := (VMax - VMin)%Q in
  let rescaled := rescale VMin VAmpl V in
  let val_list := quantize bad_int pointRange rescaled in
  ((VMax == VMin)%Q ->
     (VAmpl == 0)%Q /\
     rescaled = map (fun _ => NaN) V /\
     val_list = map (fun _ => bad_int) V /\
     forall t0 t1 t channel g,
       ~ (t1 - t0 == 0)%Q ->
       exists g' arb points,
         RigolDG1032TMC.loadVolatile str_float bad_int (t0 :: t1 :: t) V
                                     channel pointRange g = (Ok tt, g') /\
         RigolDG1032.loadVolatile str_float bad_int (t0 :: t1 :: t) V
                                  channel pointRange g = (Ok tt, g') /\
         sent g' =
           (rev (upload_commands 1 (map (fun _ => bad_int) V) channel)
              ++ [points; arb] ++ sent g)%list) /\
  ((VMin < VMax)%Q ->
     Forall (fun x => exists q, x = Fin q /\ (0 <= q)%Q /\ (q <= 1)%Q) rescaled /\
     ((0 <= pointRange)%Z ->
        Forall (fun z => (0 <= z <= pointRange)%Z) val_list)).
Proof.
  intros V VMax VMin VAmpl rescaled val_list.
  pose proof (amin_amax_bounds v0 V') as HB. fold VMin VMax V in HB.
  split.
  - intros Heq.
    assert (HA : (VAmpl == 0)%Q) by (unfold VAmpl; lra).
    assert (HR : rescaled = map (fun _ => NaN) V).
    { unfold rescaled, rescale. apply map_ext_in. intros v Hv.
      rewrite Forall_forall in HB. destruct (HB v Hv) as [Hlo Hhi].
      unfold np_div.
      assert (Ez : Qeq_bool VAmpl 0 = true) by (apply Qeq_bool_iff; exact HA).
      rewrite Ez.
      assert (E0 : (1 * (v - VMin) == 0)%Q) by lra.
      apply Qeq_alt in E0. rewrite E0. reflexivity. }
    assert (HV : val_list = map (fun _ => bad_int) V).
    { unfold val_list. rewrite HR. unfold quantize. rewrite map_map. reflexivity. }
    split; [exact HA |]. split; [exact HR |]. split; [exact HV |].
    intros t0 t1 t channel g Hdt.
    destruct (loadVolatile_run t0 t1 t v0 V' channel pointRange g Hdt)
      as (g' & E & arb & points & S).
    exists g', arb, points.
    split; [exact E |]. split; [exact E |].
    rewrite S. fold VMin VMax V VAmpl rescaled val_list. rewrite HV. reflexivity.
  - intros Hlt.
    assert (Hpos : (0 < VAmpl)%Q) by (unfold VAmpl; lra).
    assert (Ez : Qeq_bool VAmpl 0 = false).
    { destruct (Qeq_bool VAmpl 0) eqn:E; [| reflexivity].
      apply Qeq_bool_iff in E. lra. }
    assert (HR : Forall (fun x => exists q, x = Fin q /\ (0 <= q)%Q /\ (q <= 1)%Q) rescaled).
    { unfold rescaled, rescale. apply Forall_map.
      eapply Forall_impl; [| exact HB]. intros v [Hlo Hhi]. cbn beta.
      unfold np_div. rewrite Ez. eexists. split; [reflexivity |].
      apply unit_fraction; [lra | unfold VAmpl; lra | exact Hpos]. }
    split; [exact HR |].
    intros Hp. unfold val_list, quantize. apply Forall_map.
    eapply Forall_impl; [| exact HR]. intros x (q & -> & H0 & H1). cbn beta.
    cbn [np_mul]. rewrite astype_int_round.
    assert (HP : (0 <= inject_Z pointRange)%Q).
    { change 0%Q with (inject_Z 0). rewrite <- Zle_Qle. exact Hp. }
    apply round_half_even_between.
    + change (inject_Z 0) with 0%Q. apply Qmult_le_0_compat; assumption.
    + rewrite <- (Qmult_1_l (inject_Z pointRange)) at 2.
      apply Qmult_le_compat_r; assumption.
Qed.

End WithBuiltins.

(** *** The statement above at a concrete vector *)

Lemma loadVolatile_rescaling_witness :
  (amax 1 [1%Q] - amin 1 [1%Q] == 0)%Q /\
  rescale (amin 1 [1%Q]) (amax 1 [1%Q] - amin 1 [1%Q]) [1%Q; 1%Q]
    = [NaN; NaN] /\
  quantize (-9223372036854775808) 16383
           (rescale (amin 1 [1%Q]) (amax 1 [1%Q] - amin 1 [1%Q]) [1%Q; 1%Q])
    = [-9223372036854775808; -9223372036854775808]%Z.
Proof.
  destruct (loadVolatile_rescaling Bench.bench_str_float
              (-9223372036854775808) 1 [1%Q] 16383) as [Hconst _].
  destruct Hconst as (H1 & H2 & H3 & _).
  - reflexivity.
  - split; [exact H1 |]. split; [exact H2 | exact H3].
Defined.

End GeneratorFacts.

(* ===================================================================== *)
(** ** Facts about the 14-bit quantizer *)
(* ===================================================================== *)

Module QuantizerFacts.

Import GenerateArb NpFacts.

(** C8.  For every value [v] in [[0,1]], encoding with [V2b]
    ([round(v * 16383)]) and decoding with [b2V] ([b / 16383]) gives a value
    that differs from [v] by at most [1/16383]; the encoded value is a
    14-bit number. *)
Theorem V2b_b2V_roundtrip (v : Q) :
  (0 <= v)%Q -> (v <= 1)%Q ->
  (Qabs (b2V (V2b v) - v) <= 1 # 16383)%Q /\
  (0 <= V2b v)%Q /\ (V2b v <= 16383)%Q.
Proof.
  intros H0 H1.
  unfold b2V, V2b, Np.round, bitrange.
  pose proof (round_half_even_near (inject_Z 16383 * v)) as H.
  apply Qabs_Qle_condition in H. destruct H as [Hlo Hhi].
  pose proof (round_half_even_between (inject_Z 16383 * v) 0 16383) as B.
  change (inject_Z 16383) with (16383 # 1)%Q in *.
  change (inject_Z 0) with 0%Q in B.
  destruct B as [B0 B1]; [lra | lra |].
  split.
  - apply Qabs_Qle_condition.
    set (y := inject_Z (Np.round_half_even ((16383 # 1) * v))) in *.
    unfold Qdiv. change (/ (16383 # 1))%Q with (1 # 16383)%Q.
    split; lra.
  - split.
    + change 0%Q with (inject_Z 0). rewrite <- Zle_Qle. exact B0.
    + change (16383 : Q) with (inject_Z 16383). rewrite <- Zle_Qle. exact B1.
Qed.

Lemma V2b_b2V_roundtrip_witness :
  (Qabs (b2V (V2b (1 # 2)) - (1 # 2)) <= 1 # 16383)%Q /\
  (0 <= V2b (1 # 2))%Q /\ (V2b (1 # 2) <= 16383)%Q.
Proof.
  apply (V2b_b2V_roundtrip (1 # 2)).
  - discriminate.
  - discriminate.
Defined.

End QuantizerFacts.

(* ===================================================================== *)
(** ** Facts about complete runs of the oscilloscope methods *)
(* ===================================================================== *)

Module ScopeRunFacts.

Import DS1102 ScopeSpec ScopeRuns ScopeFacts.

Local Open Scope string_scope.

Section WithInstrument.
#[local] Set Default Proof Using "Type".
Variable py_float : string -> option Q.
Variable py_int : string -> option Z.
Variable dev : Device.
Local Abbreviation reply := (ScopeSpec.reply dev).
Local Abbreviation answers := (ScopeSpec.answers dev).

Lemma getNDevs_run s m d rt q n v :
  answers ":WAV:POINTS:MODE?" m ->
  answers ":ACQ:MEMDEPTH?" d ->
  answers ":TIM:SCAL?" rt -> py_float rt = Some q ->
  nChannels s = Some n ->
  nDevs_of m d n q = Some v ->
  getNDevs py_float dev s =
  (Ok v, set_memDepth d (set_sent (":ACQ:MEMDEPTH?" :: ":WAV:POINTS:MODE?" :: ":TIM:SCAL?" :: sent s)
           (set_acqMode m (set_tScale q s)))).
Proof.
  intros Am Ad At Pq Hn Hv.
  unfold getNDevs. unfold bind at 1.
  rewrite (getTScale_run py_float dev s q) by (rewrite At; exact Pq).
  unfold bind at 1. unfold attr at 1. py_fields.
  unfold bind at 1. rewrite getAcqMode_run.
  unfold bind at 1. rewrite getMemDepth_run.
  rewrite Am, Ad. py_simpl. rewrite Hn. py_simpl.
  unfold nDevs_of in Hv.
  destruct (m =? "NORMAL").
  - inversion Hv; subst. py_simpl. reflexivity.
  - destruct (devDict_of d n) as [t |]; [| discriminate Hv].
    py_simpl. rewrite Hv. py_simpl. reflexivity.
Qed.

Lemma getNPoints_run s m d n N :
  answers ":WAV:POINTS:MODE?" m ->
  answers ":ACQ:MEMDEPTH?" d ->
  nChannels s = Some n ->
  nPoints_of m d n = Some N ->
  getNPoints dev s =
  (Ok tt, set_nPoints N (set_memDepth d
            (set_sent (":ACQ:MEMDEPTH?" :: ":WAV:POINTS:MODE?" :: sent s)
               (set_acqMode m s)))).
Proof.
  intros Am Ad Hn HN.
  unfold getNPoints. unfold bind at 1. rewrite getAcqMode_run.
  unfold bind at 1. rewrite getMemDepth_run. rewrite Am, Ad.
  py_simpl. rewrite Hn. py_simpl. rewrite HN. py_simpl. reflexivity.
Qed.

Lemma dict_get_nonzero (t : list (Q * Q)) (q v : Q) :
  Forall (fun kv => ~ (snd kv == 0)%Q) t -> dict_get t q = Some v -> ~ (v == 0)%Q.
Proof.
  induction t as [| [k x] t IH]; intros F H; simpl in H; [discriminate H |].
  inversion F as [| ? ? Hx Ft]; subst.
  destruct (Qeq_bool k q).
  - inversion H; subst. exact Hx.
  - apply IH; assumption.
Qed.

Lemma nDevs_of_nonzero m d n q v : nDevs_of m d n q = Some v -> ~ (v == 0)%Q.
Proof.
  unfold nDevs_of. destruct (m =? "NORMAL").
  - intros H. inversion H; subst. discriminate.
  - unfold devDict_of.
    destruct (d =? "NORMAL"), (n =? 1)%Z, (n =? 2)%Z; try discriminate;
      apply dict_get_nonzero; repeat constructor; discriminate.
Qed.

Lemma getTOffset_run s ro off :
  answers ":TIM:OFFS?" ro -> py_float ro = Some off ->
  getTOffset py_float dev s
  = (Ok off, set_tOffs off (set_sent (":TIM:OFFS?" :: sent s) s)).
Proof.
  intros Ao Po. unfold getTOffset. unfold bind at 1. rewrite query_run.
  rewrite Ao. unfold bind at 1. rewrite Po. reflexivity.
Qed.

Lemma arange_axis (q v : Q) (n : Z) :
  ~ (q == 0)%Q -> ~ (v == 0)%Q -> ~ (inject_Z n == 0)%Q ->
  Np.arange (- q * v / 2) (q * v / 2) (q * v / inject_Z n)
  = Ok (map (fun i => (- q * v / 2
                       + inject_Z (Z.of_nat i) * (q * v / inject_Z n))%Q)
            (seq 0 (Z.to_nat n))).
Proof.
  intros Hq Hv0 HN0. unfold Np.arange.
  destruct (Qeq_bool (q * v / inject_Z n) 0) eqn:Ez.
  { apply Qeq_bool_iff in Ez. exfalso.
    apply Qmult_integral in Ez. destruct Ez as [Ez | Ez].
    - apply Qmult_integral in Ez.
      destruct Ez as [Ez | Ez]; [exact (Hq Ez) | exact (Hv0 Ez)].
    - apply HN0. rewrite <- (Qinv_involutive (inject_Z n)). rewrite Ez. reflexivity. }
  rewrite (arange_span_len _ _ (q * v) n); [reflexivity | field | exact Ez].
Qed.

Lemma getTimeVec_state s m d n N rt q ro off v :
  answers ":WAV:POINTS:MODE?" m ->
  answers ":ACQ:MEMDEPTH?" d ->
  nChannels s = Some n ->
  nPoints_of m d n = Some N ->
  answers ":TIM:SCAL?" rt -> py_float rt = Some q -> ~ (q == 0)%Q ->
  answers ":TIM:OFFS?" ro -> py_float ro = Some off ->
  nDevs_of m d n q = Some v ->
  getTimeVec py_float dev s
  = (Ok (time_axis q v (N - 10) off), after_getTimeVec m d N q off v s).
Proof.
  intros Am Ad Hn HN At Pq Hq Ao Po Hv.
  pose proof (nDevs_of_nonzero _ _ _ _ _ Hv) as Hv0.
  assert (HN0 : ~ (inject_Z (N - 10) == 0)%Q).
  { apply nPoints_of_counts in HN. unfold counts in HN. simpl in HN.
    intros E. unfold Qeq in E. simpl in E. lia. }
  unfold getTimeVec. unfold bind at 1.
  rewrite (getNPoints_run s m d n N) by assumption.
  unfold bind at 1.
  rewrite (getTScale_run py_float dev _ q) by (rewrite At; exact Pq).
  unfold bind at 1.
  rewrite (getTOffset_run _ ro off) by assumption.
  unfold bind at 1. unfold attr at 1. cbn [nPoints set_tOffs set_tScale set_sent set_nPoints].
  unfold bind at 1.
  match goal with |- context [getNDevs py_float dev ?st] =>
    rewrite (getNDevs_run st m d rt q n v) by (try assumption; exact Hn)
  end.
  unfold bind at 1. unfold print at 1, modify at 1.
  unfold bind at 1. unfold attr at 1.
  cbn [tScale set_stdout set_memDepth set_sent set_acqMode set_tScale].
  unfold bind at 1. unfold lift at 1.
  rewrite (arange_axis q v (N - 10)) by assumption.
  unfold bind at 1. unfold attr at 1.
  cbn [tOffs set_stdout set_memDepth set_sent set_acqMode set_tScale set_tOffs].
  reflexivity.
Qed.

Lemma getTimeVec_run s m d n N rt q ro off v :
  answers ":WAV:POINTS:MODE?" m ->
  answers ":ACQ:MEMDEPTH?" d ->
  nChannels s = Some n ->
  nPoints_of m d n = Some N ->
  answers ":TIM:SCAL?" rt -> py_float rt = Some q -> ~ (q == 0)%Q ->
  answers ":TIM:OFFS?" ro -> py_float ro = Some off ->
  nDevs_of m d n q = Some v ->
  exists s1,
    getTimeVec py_float dev s = (Ok (time_axis q v (N - 10) off), s1) /\
    nPoints s1 = Some N /\
    sent s1 = (getTimeVec_queries ++ sent s)%list /\
    stdout s1 = PNumber v :: stdout s /\
    verbose s1 = verbose s /\
    nChannels s1 = Some n.
Proof.
  intros Am Ad Hn HN At Pq Hq Ao Po Hv.
  exists (after_getTimeVec m d N q off v s).
  split; [apply (getTimeVec_state s m d n N rt q ro off v); assumption |].
  repeat split. exact Hn.
Qed.

Local Abbreviation resolved := (ScopeSpec.resolved py_int).
Local Abbreviation trace_of := (ScopeSpec.trace_of dev).
Local Abbreviation decode := (ScopeSpec.decode py_float dev).
Local Abbreviation acquire := (ScopeSpec.acquire py_float dev).
Local Abbreviation channel_ready := (ScopeRuns.channel_ready py_float dev).
Local Abbreviation payload_length := (ScopeRuns.payload_length dev).

Lemma time_axis_length tS nDevs nData off :
  List.length (time_axis tS nDevs nData off) = Z.to_nat nData.
Proof. unfold time_axis. rewrite !length_map, length_seq. reflexivity. Qed.

Lemma substring_length (m : nat) (s : string) :
  String.length (substring 0 m s) = Nat.min m (String.length s).
Proof.
  revert s. induction m as [| m IH]; intros [| c s]; simpl; try reflexivity.
  rewrite IH. reflexivity.
Qed.

Lemma frombuffer_length (raw : string) :
  List.length (Np.frombuffer raw) = String.length raw.
Proof.
  unfold Np.frombuffer. rewrite length_map.
  induction raw as [| c raw IH]; simpl; [reflexivity | rewrite IH; reflexivity].
Qed.

Lemma trace_of_length c n log :
  List.length (trace_of c n log)
  = (Nat.min (Z.to_nat n) (payload_length c log) - 10)%nat.
Proof.
  unfold ScopeSpec.trace_of, ScopeRuns.payload_length.
  rewrite length_skipn, frombuffer_length, substring_length. reflexivity.
Qed.

Lemma rescaleToVolts_run data c o sc s :
  channel_ready c o sc ->
  exists s',
    rescaleToVolts py_float dev data c s = (Ok (map (volts o sc) data), s').
Proof.
  intros (r_o & r_s & Ao & Po & As & Ps & Hs).
  unfold rescaleToVolts, getVOffset, getVScale.
  unfold bind at 1 2. rewrite query_run. rewrite Ao, Po. py_simpl.
  change (substring 0 (Z.to_nat 100)
            (dev ((":CHAN" ++ str_int c ++ ":SCAL?")
                    :: (":CHAN" ++ str_int c ++ ":OFFS?") :: sent s)%string))
    with (reply (":CHAN" ++ str_int c ++ ":SCAL?")
                ((":CHAN" ++ str_int c ++ ":OFFS?")%string :: sent s)).
  rewrite As, Ps.
  destruct (Qeq_bool sc 0) eqn:Ez.
  - apply Qeq_bool_iff in Ez. contradiction.
  - eexists. reflexivity.
Qed.

(** The outcome of [readWaveform] for a configuration the tables cover and
    channels whose queries parse: the packaging step decides. *)
Lemma readWaveform_outcome s ch stopping c both m d n N rt q ro off v o1 sc1 o2 sc2 :
  answers ":WAV:POINTS:MODE?" m ->
  answers ":ACQ:MEMDEPTH?" d ->
  nChannels s = Some n ->
  nPoints_of m d n = Some N ->
  answers ":TIM:SCAL?" rt -> py_float rt = Some q -> ~ (q == 0)%Q ->
  answers ":TIM:OFFS?" ro -> py_float ro = Some off ->
  nDevs_of m d n q = Some v ->
  resolved ch c both ->
  channel_ready c o1 sc1 ->
  (both = true -> channel_ready 2 o2 sc2) ->
  exists s' log1,
    nPoints s' = Some N /\
    ((610 < N)%Z -> In ":RUN" (sent s')) /\
    let tData := time_axis q v (N - 10) off in
    let Vdata := map (volts o1 sc1) (trace_of c N log1) in
    let Vdata2 := map (volts o2 sc2)
                      (trace_of 2 N ((":WAV:DATA? CHAN" ++ str_int c)%string :: log1)) in
    readWaveform py_float py_int dev ch stopping s
    = (if both then Np.column_stack3 tData Vdata Vdata2
       else Np.column_stack2 tData Vdata, s').
Proof.
  intros Am Ad Hn HN At Pq Hq Ao Po Hv Hr Hc Hc2.
  destruct (getTimeVec_run s m d n N rt q ro off v) as (s1 & Et & N1 & _);
    try assumption.
  rewrite readWaveform_unfold. rewrite Et.
  assert (Hacq :
    exists s' log1,
      nPoints s' = Some N /\
      ((610 < N)%Z -> In ":RUN" (sent s')) /\
      acquire (time_axis q v (N - 10) off) c both stopping s1
      = (if both
         then Np.column_stack3 (time_axis q v (N - 10) off)
                (map (volts o1 sc1) (trace_of c N log1))
                (map (volts o2 sc2)
                   (trace_of 2 N ((":WAV:DATA? CHAN" ++ str_int c)%string :: log1)))
         else Np.column_stack2 (time_axis q v (N - 10) off)
                (map (volts o1 sc1) (trace_of c N log1)), s')).
  { destruct (acquire (time_axis q v (N - 10) off) c both stopping s1)
      as [r s'] eqn:Ha.
    destruct (acquire_run py_float dev _ _ _ _ _ _ _ _ N1 Ha) as (s6 & N6 & S6 & Hd).
    cbv zeta in Hd, S6.
    pose proof (decode_kept py_float dev _ _ _ _ _ _ _ _ Hd) as K.
    pose proof (decode_wrote py_float dev _ _ _ _ _ _ _ _ Hd) as W.
    assert (N' : nPoints s' = Some N) by (unfold kept in K; congruence).
    assert (R' : (610 < N)%Z -> In ":RUN" (sent s')).
    { intros L. destruct W as (new & -> & _). apply in_or_app. right.
      rewrite S6. apply Z.ltb_lt in L. rewrite L. left. reflexivity. }
    exists s',
      ((if ((610 <? N)%Z && stopping)%bool then [":STOP"] else []) ++ sent s1)%list.
    split; [exact N' |]. split; [exact R' |]. clear K W N' R' S6.
    unfold ScopeSpec.decode in Hd. unfold bind at 1 in Hd.
    destruct (rescaleToVolts_run (trace_of c N
                 ((if ((610 <? N)%Z && stopping)%bool then [":STOP"] else []) ++ sent s1)%list)
                c o1 sc1 s6 Hc) as (s7 & E7).
    rewrite E7 in Hd. destruct both.
    - unfold bind at 1 in Hd.
      match type of Hd with context [rescaleToVolts py_float dev ?dat 2 s7] =>
        destruct (rescaleToVolts_run dat 2 o2 sc2 s7 (Hc2 eq_refl)) as (s8 & E8)
      end.
      rewrite E8 in Hd. unfold lift in Hd.
      injection Hd as <- <-. reflexivity.
    - unfold lift in Hd. injection Hd as <- <-. reflexivity. }
  unfold ScopeSpec.resolved in Hr.
  destruct (upper (str ch) =? "BOTH").
  - destruct Hr as [-> ->]. exact Hacq.
  - destruct Hr as [Hi ->]. rewrite Hi. exact Hacq.
Qed.


Lemma short_payload_trace c N log :
  (10 < N)%Z ->
  (payload_length c log < Z.to_nat N)%nat ->
  (List.length (trace_of c N log) < Z.to_nat (N - 10))%nat.
Proof.
  intros HN H. rewrite trace_of_length. rewrite Nat.min_r by lia.
  rewrite Z2Nat.inj_sub by lia. change (Z.to_nat 10) with 10%nat.
  assert (10 < Z.to_nat N)%nat by lia. lia.
Qed.


(** X2.  Under the same conditions but with a waveform reply for the
    channel read first that is shorter than the [N] bytes asked for,
    [readWaveform] raises [ValueError] (the time axis and the trace do not
    stack), after the acquisition has been resumed. *)
Theorem readWaveform_short_read
        s ch stopping c both m d n N rt q ro off v o1 sc1 o2 sc2 :
  answers ":WAV:POINTS:MODE?" m ->
  answers ":ACQ:MEMDEPTH?" d ->
  nChannels s = Some n ->
  nPoints_of m d n = Some N ->
  answers ":TIM:SCAL?" rt -> py_float rt = Some q -> ~ (q == 0)%Q ->
  answers ":TIM:OFFS?" ro -> py_float ro = Some off ->
  nDevs_of m d n q = Some v ->
  resolved ch c both ->
  channel_ready c o1 sc1 ->
  (both = true -> channel_ready 2 o2 sc2) ->
  (forall log, (payload_length c log < Z.to_nat N)%nat) ->
  exists s',
    readWaveform py_float py_int dev ch stopping s = (Raise ValueError, s') /\
    nPoints s' = Some N /\
    ((610 < N)%Z -> In ":RUN" (sent s')).
Proof.
  intros Am Ad Hn HN At Pq Hq Ao Po Hv Hr Hc Hc2 L1.
  destruct (readWaveform_outcome s ch stopping c both m d n N rt q ro off v
              o1 sc1 o2 sc2) as (s' & log1 & N' & R' & E); try assumption.
  cbv zeta in E. rewrite E. clear E.
  assert (HN10 : (10 < N)%Z).
  { apply nPoints_of_counts in HN. unfold counts in HN. simpl in HN. lia. }
  assert (La : (List.length (time_axis q v (N - 10) off)
                =? List.length (map (volts o1 sc1) (trace_of c N log1)))%nat = false).
  { apply Nat.eqb_neq. rewrite time_axis_length, length_map.
    pose proof (short_payload_trace c N log1 HN10 (L1 log1)). lia. }
  exists s'. split; [| split; assumption].
  destruct both.
  - unfold Np.column_stack3. rewrite La. reflexivity.
  - unfold Np.column_stack2. rewrite La. reflexivity.
Qed.






(** X4.  In RAW acquisition with a channel count of 1 or 2 and a
    time/division the table lists, [getNDevs] returns the table's value:
    it writes its three queries, prints nothing and leaves the sample
    count alone. *)
Theorem getNDevs_listed s m d rt q n table v :
  answers ":WAV:POINTS:MODE?" m ->
  (m =? "NORMAL") = false ->
  answers ":ACQ:MEMDEPTH?" d ->
  answers ":TIM:SCAL?" rt -> py_float rt = Some q ->
  nChannels s = Some n ->
  devDict_of d n = Some table ->
  dict_get table q = Some v ->
  exists s',
    getNDevs py_float dev s = (Ok v, s') /\
    sent s' = ":ACQ:MEMDEPTH?" :: ":WAV:POINTS:MODE?" :: ":TIM:SCAL?" :: sent s /\
    stdout s' = stdout s /\
    nPoints s' = nPoints s /\
    (n = 1 \/ n = 2)%Z.
Proof.
  intros Am Hm Ad At Pq Hn Ht Hv.
  rewrite (getNDevs_run s m d rt q n v); try assumption.
  - eexists. split; [reflexivity |]. py_fields.
    repeat split.
    unfold devDict_of in Ht.
    destruct (n =? 1)%Z eqn:E1; [left; lia |].
    destruct (n =? 2)%Z eqn:E2; [right; lia |].
    destruct (d =? "NORMAL"); discriminate Ht.
  - unfold nDevs_of. rewrite Hm, Ht. exact Hv.
Qed.

(** X5.  In RAW acquisition with a channel count other than 1 and 2
    (0 is what [getNumChannels] records when both displays are off),
    [getNDevs] raises [UnboundLocalError] on the table it never assigned;
    unlike for an unlisted time/division, nothing is printed. *)
Theorem getNDevs_no_table s m d rt q n :
  answers ":WAV:POINTS:MODE?" m ->
  (m =? "NORMAL") = false ->
  answers ":ACQ:MEMDEPTH?" d ->
  answers ":TIM:SCAL?" rt -> py_float rt = Some q ->
  nChannels s = Some n ->
  n <> 1%Z -> n <> 2%Z ->
  exists s',
    getNDevs py_float dev s = (Raise UnboundLocalError, s') /\
    sent s' = ":ACQ:MEMDEPTH?" :: ":WAV:POINTS:MODE?" :: ":TIM:SCAL?" :: sent s /\
    stdout s' = stdout s.
Proof.
  intros Am Hm Ad At Pq Hn H1 H2.
  unfold getNDevs. unfold bind at 1.
  rewrite (getTScale_run py_float dev s q) by (rewrite At; exact Pq).
  unfold bind at 1. unfold attr at 1. py_fields.
  unfold bind at 1. rewrite getAcqMode_run.
  unfold bind at 1. rewrite getMemDepth_run.
  rewrite Am, Ad. py_simpl. rewrite Hn. py_simpl. rewrite Hm.
  unfold devDict_of.
  apply Z.eqb_neq in H1, H2. rewrite H1, H2.
  destruct (d =? "NORMAL"); py_simpl; eexists; split; try reflexivity;
    py_fields; split; reflexivity.
Qed.

(** X6.  On an object whose channel count was never assigned (neither
    [setNumChannels] nor [getNumChannels] was called), [readWaveform]
    raises [AttributeError] whatever the instrument and its mode: it
    queries the mode and the depth, and writes and prints nothing else. *)
Theorem readWaveform_unset_channels ch stopping s :
  nChannels s = None ->
  exists s',
    readWaveform py_float py_int dev ch stopping s = (Raise AttributeError, s') /\
    sent s' = ":ACQ:MEMDEPTH?" :: ":WAV:POINTS:MODE?" :: sent s /\
    stdout s' = stdout s /\
    nPoints s' = nPoints s.
Proof.
  intros Hn. rewrite readWaveform_unfold.
  unfold getTimeVec. unfold bind at 1.
  unfold getNPoints. unfold bind at 1. rewrite getAcqMode_run.
  unfold bind at 1. rewrite getMemDepth_run.
  py_simpl. rewrite Hn.
  eexists. split; [reflexivity |]. py_fields. repeat split.
Qed.

(** X7.  [setNumChannels(n)] records [n], switches channel 1 on and
    channel 2 on exactly when [n] is 2.  A following [getNPoints] in RAW
    acquisition finds a sample count exactly for [n] 1 or 2, the memory
    (16384 samples at normal depth, 1048576 at long depth) being shared
    between the channels; for any other [n] it raises
    [UnboundLocalError]. *)
Theorem setNumChannels_then_getNPoints s m d n :
  answers ":WAV:POINTS:MODE?" m ->
  (m =? "NORMAL") = false ->
  answers ":ACQ:MEMDEPTH?" d ->
  d = "NORMAL" \/ d = "LONG" ->
  exists s1,
    setNumChannels n s = (Ok tt, s1) /\
    nChannels s1 = Some n /\
    sent s1 = (":CHAN2:DISP " ++ (if (n =? 2)%Z then "ON" else "OFF"))
                :: ":CHAN1:DISP ON" :: sent s /\
    ((n = 1 \/ n = 2)%Z ->
       exists s2,
         getNPoints dev s1 = (Ok tt, s2) /\
         nPoints s2
         = Some ((if (d =? "NORMAL")%string then 16384 else 1048576) / n + 10)%Z) /\
    (n <> 1%Z -> n <> 2%Z ->
       exists s2,
         getNPoints dev s1 = (Raise UnboundLocalError, s2) /\
         nPoints s2 = nPoints s).
Proof.
  intros Am Hm Ad Hd.
  assert (E1 : exists s1,
    setNumChannels n s = (Ok tt, s1) /\
    nChannels s1 = Some n /\
    sent s1 = (":CHAN2:DISP " ++ (if (n =? 2)%Z then "ON" else "OFF"))
                :: ":CHAN1:DISP ON" :: sent s /\
    nPoints s1 = nPoints s).
  { unfold setNumChannels. destruct (n =? 2)%Z; py_simpl; eexists;
      (split; [reflexivity |]); py_fields; repeat split. }
  destruct E1 as (s1 & E1 & N1 & S1 & P1).
  exists s1. split; [exact E1 |]. split; [exact N1 |]. split; [exact S1 |].
  assert (Run : getNPoints dev s1
    = match nPoints_of m d n with
      | Some N => (Ok tt, set_nPoints N (set_memDepth d
                     (set_sent (":ACQ:MEMDEPTH?" :: ":WAV:POINTS:MODE?" :: sent s1)
                        (set_acqMode m s1))))
      | None => (Raise UnboundLocalError,
                 set_memDepth d
                     (set_sent (":ACQ:MEMDEPTH?" :: ":WAV:POINTS:MODE?" :: sent s1)
                        (set_acqMode m s1)))
      end).
  { unfold getNPoints. unfold bind at 1. rewrite getAcqMode_run.
    unfold bind at 1. rewrite getMemDepth_run. rewrite Am, Ad.
    py_simpl. rewrite N1. py_simpl.
    destruct (nPoints_of m d n); py_simpl; reflexivity. }
  rewrite Run. unfold nPoints_of. rewrite Hm.
  split.
  - intros [-> | ->]; destruct Hd as [-> | ->]; simpl;
      eexists; (split; [reflexivity |]); py_fields; reflexivity.
  - intros H1 H2. apply Z.eqb_neq in H1, H2. rewrite H1, H2.
    rewrite !andb_false_r.
    eexists. split; [reflexivity |]. py_fields. exact P1.
Qed.

(** X8.  A channel argument that is neither ['BOTH'] (in any case) nor
    the text of an integer makes [readWaveform] raise [ValueError], after
    the time axis has been computed (seven queries, the division count
    printed) and before the acquisition is stopped or read. *)
Theorem readWaveform_bad_channel s ch stopping m d n N rt q ro off v :
  answers ":WAV:POINTS:MODE?" m ->
  answers ":ACQ:MEMDEPTH?" d ->
  nChannels s = Some n ->
  nPoints_of m d n = Some N ->
  answers ":TIM:SCAL?" rt -> py_float rt = Some q -> ~ (q == 0)%Q ->
  answers ":TIM:OFFS?" ro -> py_float ro = Some off ->
  nDevs_of m d n q = Some v ->
  (upper (str ch) =? "BOTH") = false ->
  py_int (str ch) = None ->
  exists s',
    readWaveform py_float py_int dev ch stopping s = (Raise ValueError, s') /\
    sent s' = (getTimeVec_queries ++ sent s)%list /\
    stdout s' = PNumber v :: stdout s.
Proof.
  intros Am Ad Hn HN At Pq Hq Ao Po Hv Hb Hi.
  destruct (getTimeVec_run s m d n N rt q ro off v)
    as (s1 & Et & _ & S1 & O1 & _); try assumption.
  rewrite readWaveform_unfold, Et, Hb, Hi.
  exists s1. split; [reflexivity |]. split; assumption.
Qed.

End WithInstrument.

End ScopeRunFacts.

(* ===================================================================== *)
(** ** More facts about rounding *)
(* ===================================================================== *)

Module RoundFacts.

Import NpFacts.

Lemma round_half_even_comp (x y : Q) :
  (x == y)%Q -> Np.round_half_even x = Np.round_half_even y.
Proof.
  intros H. unfold Np.round_half_even.
  rewrite (Qfloor_comp x y H).
  assert (E : ((x - inject_Z (Qfloor y) ?= 1 # 2) = (y - inject_Z (Qfloor y) ?= 1 # 2))%Q).
  { apply Qcompare_comp; [rewrite H; reflexivity | reflexivity]. }
  rewrite E. reflexivity.
Qed.

Lemma round_half_even_mono (x y : Q) :
  (x <= y)%Q -> (Np.round_half_even x <= Np.round_half_even y)%Z.
Proof.
  intros H.
  destruct (Z_le_gt_dec (Np.round_half_even x) (Np.round_half_even y)) as [L | G];
    [exact L | exfalso].
  pose proof (round_half_even_near x) as Hx.
  pose proof (round_half_even_near y) as Hy.
  apply Qabs_Qle_condition in Hx, Hy.
  destruct Hx as [Hx1 Hx2]. destruct Hy as [Hy1 Hy2].
  assert (G' : (inject_Z (Np.round_half_even y) + 1 <= inject_Z (Np.round_half_even x))%Q).
  { change 1%Q with (inject_Z 1). rewrite <- inject_Z_plus, <- Zle_Qle. lia. }
  assert (E : (x == y)%Q) by lra.
  apply round_half_even_comp in E. lia.
Qed.

Lemma round_half_even_Z (x : Q) (k : Z) :
  (x == inject_Z k)%Q -> Np.round_half_even x = k.
Proof.
  intros H.
  pose proof (round_half_even_between x k k) as B.
  destruct B as [B1 B2]; [rewrite H; apply Qle_refl | rewrite H; apply Qle_refl |].
  lia.
Qed.

End RoundFacts.

(* ===================================================================== *)
(** ** Facts about indexing and slicing *)
(* ===================================================================== *)

Module IndexFacts.

Import Index.

Lemma position_lt n i k : position n i = Some k -> (Z.of_nat k < n)%Z.
Proof.
  unfold position.
  destruct ((0 <=? i) && (i <? n))%bool eqn:E1.
  - intros H. inversion H; subst. lia.
  - destruct ((- n <=? i) && (i <? 0))%bool eqn:E2; [| discriminate].
    intros H. inversion H; subst. lia.
Qed.

Lemma position_in_range n i :
  (0 <= i < n)%Z -> position n i = Some (Z.to_nat i).
Proof.
  intros H. unfold position.
  replace ((0 <=? i) && (i <? n))%bool with true by (symmetry; lia).
  reflexivity.
Qed.

Lemma position_none n i :
  (0 <= n)%Z -> (position n i = None <-> (n <= i \/ i < - n)%Z).
Proof.
  intros Hn. unfold position.
  destruct ((0 <=? i) && (i <? n))%bool eqn:E1.
  - split; [discriminate | lia].
  - destruct ((- n <=? i) && (i <? 0))%bool eqn:E2.
    + split; [discriminate | lia].
    + split; [lia | reflexivity].
Qed.

(** An empty slice: [a[-1:0]] selects nothing, whatever [a]. *)
Lemma slice_last_to_first {A} (a : list A) : slice (-1) 0 a = [].
Proof.
  unfold slice, clip. change (0 <? 0)%Z with false. cbv iota.
  rewrite Z.min_l by lia. reflexivity.
Qed.

Lemma clip_le (a_len : nat) (i : Z) :
  (clip (Z.of_nat a_len) i <= a_len)%nat.
Proof. unfold clip. destruct (Z.ltb_spec i 0); lia. Qed.

Lemma clip_in_range (n i : Z) : (0 <= i <= n)%Z -> clip n i = Z.to_nat i.
Proof.
  intros H. unfold clip.
  replace (i <? 0)%Z with false by (symmetry; lia).
  rewrite Z.min_l by lia. reflexivity.
Qed.

Lemma clip_minus_one (n : Z) : (1 <= n)%Z -> clip n (-1) = Z.to_nat (n - 1).
Proof.
  intros H. unfold clip. change (-1 <? 0)%Z with true. cbv iota.
  rewrite Z.max_l by lia. f_equal. lia.
Qed.

Lemma slice_fill_length {A} start stop (x : A) (a : list A) :
  List.length (slice_fill start stop x a) = List.length a.
Proof.
  unfold slice_fill.
  set (n := Z.of_nat (List.length a)).
  assert (Hlo : (clip n start <= List.length a)%nat) by apply clip_le.
  assert (Hhi : (clip n stop <= List.length a)%nat) by apply clip_le.
  rewrite !length_app, repeat_length, length_firstn, length_skipn. lia.
Qed.

(** What a slice assignment of a scalar leaves at each position. *)
Lemma slice_fill_nth {A} start stop (x : A) (a : list A) (j : nat) (d : A) :
  let n := Z.of_nat (List.length a) in
  nth j (slice_fill start stop x a) d
  = if ((clip n start <=? j)%nat && (j <? clip n stop)%nat)%bool then x
    else nth j a d.
Proof.
  intros n. unfold slice_fill. fold n.
  set (lo := clip n start). set (hi := clip n stop).
  assert (Hlo : (lo <= List.length a)%nat) by apply clip_le.
  assert (Hhi : (hi <= List.length a)%nat) by apply clip_le.
  destruct (Nat.lt_ge_cases j lo) as [L | L].
  - rewrite app_nth1 by (rewrite length_firstn; lia).
    replace (lo <=? j)%nat with false by (symmetry; apply Nat.leb_gt; lia).
    simpl. rewrite <- (firstn_skipn lo a) at 2.
    rewrite app_nth1 by (rewrite length_firstn; lia). reflexivity.
  - rewrite app_nth2 by (rewrite length_firstn; lia).
    rewrite length_firstn, Nat.min_l by lia.
    replace (lo <=? j)%nat with true by (symmetry; apply Nat.leb_le; lia).
    simpl.
    destruct (Nat.lt_ge_cases j hi) as [H | H].
    + replace (j <? hi)%nat with true by (symmetry; apply Nat.ltb_lt; lia).
      rewrite app_nth1 by (rewrite repeat_length; lia).
      apply nth_repeat_lt. lia.
    + replace (j <? hi)%nat with false by (symmetry; apply Nat.ltb_ge; lia).
      rewrite app_nth2 by (rewrite repeat_length; lia).
      rewrite repeat_length. rewrite nth_skipn. f_equal. lia.
Qed.

Lemma setitem_length {A} (a : list A) i x a' :
  setitem a i x = Ok a' -> List.length a' = List.length a.
Proof.
  unfold setitem.
  destruct (position (Z.of_nat (List.length a)) i) as [k |] eqn:E; [| discriminate].
  intros H. injection H as <-. apply position_lt in E.
  rewrite length_app, length_firstn. cbn [List.length].
  change (match a with [] => [] | _ :: l => skipn k l end) with (skipn (S k) a).
  rewrite length_skipn. lia.
Qed.

Lemma setitem_nth {A} (a : list A) (k : nat) (x : A) (j : nat) (d : A) :
  (k < List.length a)%nat ->
  nth j (firstn k a ++ x :: skipn (S k) a) d = if (j =? k)%nat then x else nth j a d.
Proof.
  intros Hk.
  destruct (Nat.lt_trichotomy j k) as [L | [-> | L]].
  - rewrite app_nth1 by (rewrite length_firstn; lia).
    replace (j =? k)%nat with false by (symmetry; apply Nat.eqb_neq; lia).
    rewrite <- (firstn_skipn k a) at 2.
    rewrite app_nth1 by (rewrite length_firstn; lia). reflexivity.
  - rewrite app_nth2 by (rewrite length_firstn; lia).
    rewrite length_firstn, Nat.min_l by lia. rewrite Nat.sub_diag, Nat.eqb_refl.
    reflexivity.
  - rewrite app_nth2 by (rewrite length_firstn; lia).
    rewrite length_firstn, Nat.min_l by lia.
    replace (j =? k)%nat with false by (symmetry; apply Nat.eqb_neq; lia).
    replace (j - k)%nat with (S (j - S k)) by lia. cbn [nth].
    rewrite nth_skipn. f_equal. lia.
Qed.

Lemma clip_last (m : nat) : clip (Z.of_nat m) (-1) = (m - 1)%nat.
Proof.
  unfold clip. change (-1 <? 0)%Z with true. cbv iota.
  destruct (Z.max_spec (-1 + Z.of_nat m) 0) as [[? ->] | [? ->]]; lia.
Qed.

Lemma splice_length {A} (a b : list A) (lo hi : nat) :
  (lo <= hi)%nat -> (hi <= List.length a)%nat -> List.length b = (hi - lo)%nat ->
  List.length (firstn lo a ++ b ++ skipn (Nat.max lo hi) a) = List.length a.
Proof.
  intros H1 H2 H3.
  rewrite !length_app, length_firstn, length_skipn. lia.
Qed.

(** What a slice assignment of an array of the slice's length leaves at
    each position. *)
Lemma splice_nth {A} (a b : list A) (lo hi j : nat) (d : A) :
  (lo <= hi)%nat -> (hi <= List.length a)%nat -> List.length b = (hi - lo)%nat ->
  nth j (firstn lo a ++ b ++ skipn (Nat.max lo hi) a) d
  = if ((lo <=? j)%nat && (j <? hi)%nat)%bool then nth (j - lo) b d
    else nth j a d.
Proof.
  intros H1 H2 H3.
  destruct (Nat.lt_ge_cases j lo) as [L | L].
  - rewrite app_nth1 by (rewrite length_firstn; lia).
    replace (lo <=? j)%nat with false by (symmetry; apply Nat.leb_gt; lia).
    simpl. rewrite <- (firstn_skipn lo a) at 2.
    rewrite app_nth1 by (rewrite length_firstn; lia). reflexivity.
  - rewrite app_nth2 by (rewrite length_firstn; lia).
    rewrite length_firstn, Nat.min_l by lia.
    replace (lo <=? j)%nat with true by (symmetry; apply Nat.leb_le; lia).
    simpl.
    destruct (Nat.lt_ge_cases j hi) as [H | H].
    + replace (j <? hi)%nat with true by (symmetry; apply Nat.ltb_lt; lia).
      rewrite app_nth1 by lia. reflexivity.
    + replace (j <? hi)%nat with false by (symmetry; apply Nat.ltb_ge; lia).
      rewrite app_nth2 by lia.
      rewrite nth_skipn. f_equal. lia.
Qed.

Lemma trunc_ge (x : Q) (k : Z) :
  (0 < k)%Z -> ((k <= trunc x)%Z <-> (inject_Z k <= x)%Q).
Proof.
  intros Hk. unfold trunc.
  destruct (Qle_bool 0 x) eqn:E.
  - split; intros H.
    + apply Qle_trans with (inject_Z (Qfloor x)); [| apply Qfloor_le].
      rewrite <- Zle_Qle. exact H.
    + apply Qfloor_resp_le in H. rewrite Qfloor_Z in H. exact H.
  - assert (Hx : (x < 0)%Q).
    { apply Qnot_le_lt. intros H. apply Qle_bool_iff in H. congruence. }
    assert (Hc : (Qceiling x <= 0)%Z).
    { change 0%Z with (Qceiling 0). apply Qceiling_resp_le.
      apply Qlt_le_weak. exact Hx. }
    split; intros H; [lia |].
    exfalso. apply (Qlt_irrefl x).
    apply Qlt_le_trans with 0%Q; [exact Hx |].
    apply Qle_trans with (inject_Z k); [| exact H].
    change 0%Q with (inject_Z 0). rewrite <- Zle_Qle. lia.
Qed.

Lemma trunc_le (x : Q) (k : Z) :
  (k < 0)%Z -> ((trunc x <= k)%Z <-> (x <= inject_Z k)%Q).
Proof.
  intros Hk. unfold trunc.
  destruct (Qle_bool 0 x) eqn:E.
  - apply Qle_bool_iff in E.
    assert (Hf : (0 <= Qfloor x)%Z).
    { change 0%Z with (Qfloor 0). apply Qfloor_resp_le. exact E. }
    split; intros H; [lia |].
    exfalso. apply (Qlt_irrefl x).
    apply Qle_lt_trans with (inject_Z k); [exact H |].
    apply Qlt_le_trans with 0%Q; [| exact E].
    change 0%Q with (inject_Z 0). rewrite <- Zlt_Qlt. exact Hk.
  - split; intros H.
    + apply Qle_trans with (inject_Z (Qceiling x)); [apply Qle_ceiling |].
      rewrite <- Zle_Qle. exact H.
    + apply Qceiling_resp_le in H. rewrite Qceiling_Z in H. exact H.
Qed.

End IndexFacts.

(* ===================================================================== *)
(** ** Facts about the plotting units *)
(* ===================================================================== *)

Module UnitsFacts.

Import Index DS1102Units IndexFacts.

Local Open Scope string_scope.

(** X9.  [getTUnits] returns seconds and a scale of 1 for every array:
    its conditions test the slice [waveData[-1:0]], which is empty, so that
    none of them holds and the nanosecond, microsecond and millisecond
    branches are never taken. *)
Theorem getTUnits_always_seconds (waveData : array2) :
  getTUnits waveData = Ok ("s", 1%Q).
Proof.
  unfold getTUnits. rewrite slice_last_to_first. reflexivity.
Qed.

Lemma below_max (c x : Q) (l : list Q) :
  negb (Qle_bool c (fold_left Qmax l x))
  = (negb (Qle_bool c x) && forallb (fun v => negb (Qle_bool c v)) l)%bool.
Proof.
  revert x. induction l as [| a l IH]; intros x; simpl.
  - rewrite andb_true_r. reflexivity.
  - rewrite IH. rewrite andb_assoc. f_equal.
    rewrite <- negb_orb. f_equal.
    apply eq_true_iff_eq. rewrite orb_true_iff, !Qle_bool_iff.
    apply Q.max_le_iff.
Qed.

(** X10.  [getVUnits] returns millivolts (and a scale of 1000) exactly
    when every sample of the chosen column is below 0.2, however negative,
    and volts otherwise.  An array without rows raises [ValueError], a
    column index out of range [IndexError]. *)
Theorem getVUnits_column (waveData : array2) (channel : Z) :
  getVUnits waveData channel
  = match position (ncols waveData) channel with
    | None => Raise IndexError
    | Some k =>
        match rows waveData with
        | [] => Raise ValueError
        | _ :: _ =>
            Ok (if forallb (fun row => negb (Qle_bool (2 # 10) (nth k row 0%Q)))
                           (rows waveData)
                then ("mV", 1000%Q) else ("V", 1%Q))
        end
    end.
Proof.
  unfold getVUnits, column_at.
  destruct (position (ncols waveData) channel) as [k |]; [| reflexivity].
  unfold lift at 1. unfold Np.column.
  destruct (rows waveData) as [| r rs]; [reflexivity |].
  simpl map. unfold max_of, lift. rewrite below_max.
  cbn [forallb].
  assert (Hmap : forall l,
    forallb (fun v => negb (Qle_bool (2 # 10) v)) (map (fun r => nth k r 0%Q) l)
    = forallb (fun row => negb (Qle_bool (2 # 10) (nth k row 0%Q))) l).
  { induction l as [| y l IH]; simpl; [reflexivity | rewrite IH; reflexivity]. }
  rewrite Hmap.
  destruct (negb (Qle_bool (2 # 10) (nth k r 0%Q)) &&
            forallb (fun x => negb (Qle_bool (2 # 10) (nth k x 0%Q))) rs)%bool;
    reflexivity.
Qed.

End UnitsFacts.

(* ===================================================================== *)
(** ** Facts about the waveform editor *)
(* ===================================================================== *)

Module ArbWaveFacts.

Import Index GenerateArb ArbWave IndexFacts RoundFacts.

(** X21.  On every integer code [k], [b2V] followed by [V2b] gives [k]
    back; and [V2b] preserves the order of voltages. *)
Theorem V2b_codes :
  (forall k : Z, V2b (b2V (inject_Z k)) = inject_Z k) /\
  (forall v w : Q, (v <= w)%Q -> (V2b v <= V2b w)%Q).
Proof.
  split.
  - intros k. unfold V2b, b2V, Np.round. f_equal.
    apply round_half_even_Z. unfold bitrange. field.
  - intros v w H. unfold V2b, Np.round. rewrite <- Zle_Qle.
    apply round_half_even_mono.
    apply Qmult_le_l; [reflexivity | exact H].
Qed.

Lemma getitem_nth {A} (a : list A) (i : Z) (k : nat) (d : A) :
  position (Z.of_nat (List.length a)) i = Some k ->
  getitem a i = Ok (nth k a d).
Proof.
  intros H. unfold getitem. rewrite H.
  pose proof (position_lt _ _ _ H) as L.
  destruct (nth_error a k) as [x |] eqn:E.
  - f_equal. symmetry. apply nth_error_nth. exact E.
  - apply nth_error_None in E. lia.
Qed.

Lemma getitem_raises {A} (a : list A) (i : Z) :
  (exists e, getitem a i = Raise e)
  <-> (Z.of_nat (List.length a) <= i \/ i < - Z.of_nat (List.length a))%Z.
Proof.
  rewrite <- position_none by lia. unfold getitem.
  destruct (position (Z.of_nat (List.length a)) i) as [k |] eqn:E.
  - pose proof (position_lt _ _ _ E) as L.
    destruct (nth_error a k) as [x |] eqn:En.
    + split; [intros [e He]; discriminate He | discriminate].
    + apply nth_error_None in En. lia.
  - split; [reflexivity | intros _; eexists; reflexivity].
Qed.

Lemma t2step_range (t : Q) :
  (0 <= t)%Q -> (t < 1)%Q -> (0 <= t2step t < nSteps)%Z.
Proof.
  intros H0 H1. unfold t2step, trunc, nSteps.
  assert (Hx : (0 <= inject_Z 4096 * t)%Q).
  { apply Qmult_le_0_compat; [discriminate | exact H0]. }
  apply Qle_bool_iff in Hx. rewrite Hx. apply Qle_bool_iff in Hx.
  split.
  - change 0%Z with (Qfloor 0). apply Qfloor_resp_le. exact Hx.
  - assert (L : (inject_Z (Qfloor (inject_Z 4096 * t)) < inject_Z 4096)%Q).
    { apply Qle_lt_trans with (inject_Z 4096 * t)%Q; [apply Qfloor_le |].
      change (inject_Z 4096) with (4096 # 1)%Q. lra. }
    rewrite <- Zlt_Qlt in L. exact L.
Qed.

(** X16.  On a wave of [nSteps] samples, [getV(t)] raises [IndexError]
    exactly for the times [t >= 1] and [t <= -4097/4096]: the end of the
    documented range [[0,1]] is refused.  For [0 <= t < 1] it returns the
    sample at step [t2step(t)], scaled back to [[0,1]]; it never changes
    the wave. *)
Theorem getV_range (t : Q) (wave : Wave) :
  List.length wave = Z.to_nat nSteps ->
  (fst (getV t wave) = Raise IndexError
   <-> (1 <= t)%Q \/ (t <= - (4097 # 4096))%Q) /\
  ((0 <= t)%Q -> (t < 1)%Q ->
   (0 <= t2step t < nSteps)%Z /\
   getV t wave = (Ok (b2V (nth (Z.to_nat (t2step t)) wave 0%Q)), wave)) /\
  snd (getV t wave) = wave.
Proof.
  intros Hlen.
  assert (Hn : Z.of_nat (List.length wave) = 4096%Z) by (rewrite Hlen; reflexivity).
  assert (Hrun : getV t wave
                 = match getitem wave (t2step t) with
                   | Ok b => (Ok (b2V b), wave)
                   | Raise e => (Raise e, wave)
                   end).
  { unfold getV, bind, gets, lift, ret.
    destruct (getitem wave (t2step t)); reflexivity. }
  split; [| split].
  - rewrite Hrun.
    pose proof (getitem_raises wave (t2step t)) as R. rewrite Hn in R.
    assert (Hidx : (4096 <= t2step t \/ t2step t < - 4096)%Z
                   <-> (1 <= t)%Q \/ (t <= - (4097 # 4096))%Q).
    { unfold t2step, nSteps.
      rewrite (trunc_ge (inject_Z 4096 * t) 4096) by lia.
      assert (Hlt : (trunc (inject_Z 4096 * t) < - 4096)%Z
                    <-> (trunc (inject_Z 4096 * t) <= - 4097)%Z) by lia.
      rewrite Hlt.
      rewrite (trunc_le (inject_Z 4096 * t) (- 4097)) by lia.
      change (inject_Z 4096) with (4096 # 1)%Q.
      change (inject_Z (- 4097)) with (- 4097 # 1)%Q.
      split; (intros [H | H]; [left | right]); lra. }
    rewrite <- Hidx, <- R.
    destruct (getitem wave (t2step t)) as [b | e] eqn:E; simpl.
    + split; [discriminate | intros [e He]; discriminate He].
    + split; [intros _; eexists; reflexivity |].
      intros _. f_equal.
      unfold getitem in E.
      destruct (position (Z.of_nat (List.length wave)) (t2step t));
        [destruct (nth_error wave n) |]; congruence.
  - intros H0 H1. pose proof (t2step_range t H0 H1) as Hr.
    split; [exact Hr |]. rewrite Hrun.
    rewrite (getitem_nth wave (t2step t) (Z.to_nat (t2step t)) 0%Q).
    + reflexivity.
    + apply position_in_range. rewrite Hn. exact Hr.
  - rewrite Hrun. destruct (getitem wave (t2step t)); reflexivity.
Qed.

Lemma fillV_nth (stepf : Z) (Vf : Q) (wave : Wave) (j : nat) (d : Q) :
  nth j (slice_fill stepf (-1) (V2b Vf) wave) d
  = if ((clip (Z.of_nat (List.length wave)) stepf <=? j)%nat
        && (j <? List.length wave - 1)%nat)%bool
    then V2b Vf else nth j wave d.
Proof. rewrite slice_fill_nth. rewrite clip_last. reflexivity. Qed.

(** X17.  [fillV(stepf, Vf)] always returns, keeps the length of the wave
    and writes [V2b(Vf)] from step [stepf] up to, but not including, the
    last sample: the last sample of the wave is never filled. *)
Theorem fillV_keeps_last (stepf : Z) (Vf : Q) (wave : Wave) :
  exists wave',
    fillV stepf Vf wave = (Ok tt, wave') /\
    List.length wave' = List.length wave /\
    (forall j d,
       nth j wave' d
       = if ((clip (Z.of_nat (List.length wave)) stepf <=? j)%nat
             && (j <? List.length wave - 1)%nat)%bool
         then V2b Vf else nth j wave d) /\
    (forall d, nth (List.length wave - 1) wave' d
               = nth (List.length wave - 1) wave d).
Proof.
  exists (slice_fill stepf (-1) (V2b Vf) wave).
  split; [reflexivity |]. split; [apply slice_fill_length |].
  split; [apply fillV_nth |].
  intros d. rewrite fillV_nth. rewrite Nat.ltb_irrefl, andb_false_r. reflexivity.
Qed.

Lemma assign_run (i : Z) (x : Q) (wave : Wave) :
  (0 <= i < Z.of_nat (List.length wave))%Z ->
  assign i x wave
  = (Ok tt, firstn (Z.to_nat i) wave ++ x :: skipn (S (Z.to_nat i)) wave)%list.
Proof.
  intros H. unfold assign, bind, gets, lift, modify, setitem.
  rewrite position_in_range by exact H. reflexivity.
Qed.

Lemma assign_raises (i : Z) (x : Q) (wave : Wave) :
  (Z.of_nat (List.length wave) <= i)%Z ->
  assign i x wave = (Raise IndexError, wave).
Proof.
  intros H. unfold assign, bind, gets, lift, modify, setitem.
  assert (E : position (Z.of_nat (List.length wave)) i = None)
    by (apply position_none; lia).
  rewrite E. reflexivity.
Qed.

Lemma assigned_length (k : nat) (x : Q) (wave : Wave) :
  (k < List.length wave)%nat ->
  List.length (firstn k wave ++ x :: skipn (S k) wave) = List.length wave.
Proof.
  intros H. rewrite length_app, length_firstn. cbn [List.length].
  rewrite length_skipn. lia.
Qed.

(** X18.  For a start step [i = t2step(ti)] with [0 <= i] and [i + 1]
    inside the wave, [addStep(ti, Vi, Vf)] writes [V2b(Vi)] at step [i] and
    [V2b(Vf)] at step [i + 1] and at every later step but the last, and
    leaves the samples before [i] as they were. *)
Theorem addStep_effect (ti Vi Vf : Q) (wave : Wave) :
  let i := Z.to_nat (t2step ti) in
  (0 <= t2step ti)%Z ->
  (i + 1 < List.length wave)%nat ->
  exists wave',
    addStep ti Vi Vf wave = (Ok tt, wave') /\
    List.length wave' = List.length wave /\
    forall j d,
      nth j wave' d
      = if (j =? i)%nat then V2b Vi
        else if ((j =? i + 1)%nat
                 || ((i <? j)%nat && (j <? List.length wave - 1)%nat))%bool
             then V2b Vf
             else nth j wave d.
Proof.
  intros i H0 H1. subst i. set (i := Z.to_nat (t2step ti)) in *.
  unfold addStep. unfold bind at 1.
  rewrite assign_run by lia. fold i.
  set (w1 := (firstn i wave ++ V2b Vi :: skipn (S i) wave)%list).
  assert (L1 : List.length w1 = List.length wave) by (apply assigned_length; lia).
  unfold bind at 1. rewrite assign_run by lia.
  replace (Z.to_nat (t2step ti + 1)) with (i + 1)%nat by lia.
  set (w2 := (firstn (i + 1) w1 ++ V2b Vf :: skipn (S (i + 1)) w1)%list).
  assert (L2 : List.length w2 = List.length w1) by (apply assigned_length; lia).
  exists (slice_fill (t2step ti + 1) (-1) (V2b Vf) w2).
  split; [reflexivity |].
  split; [rewrite slice_fill_length; congruence |].
  intros j d. rewrite fillV_nth. rewrite L2, L1.
  rewrite clip_in_range by lia.
  replace (Z.to_nat (t2step ti + 1)) with (i + 1)%nat by lia.
  unfold w2. rewrite setitem_nth by lia.
  unfold w1. rewrite setitem_nth by lia.
  destruct (Nat.eqb_spec j i) as [-> | Ni].
  - replace (i + 1 <=? i)%nat with false by (symmetry; apply Nat.leb_gt; lia).
    replace (i =? i + 1)%nat with false by (symmetry; apply Nat.eqb_neq; lia).
    reflexivity.
  - destruct (Nat.eqb_spec j (i + 1)) as [-> | Ni1].
    + simpl. destruct ((i + 1 <=? i + 1)%nat && (i + 1 <? List.length wave - 1)%nat)%bool;
        reflexivity.
    + simpl.
      replace (i + 1 <=? j)%nat with (i <? j)%nat; [reflexivity |].
      apply eq_true_iff_eq. rewrite Nat.ltb_lt, Nat.leb_le. lia.
Qed.

(** X19.  When [t2step(ti)] is the last step of the wave, [addStep] raises
    [IndexError] on its second assignment, after the first one has
    overwritten the last sample with [V2b(Vi)]. *)
Theorem addStep_last_step (ti Vi Vf : Q) (wave : Wave) :
  let i := Z.to_nat (t2step ti) in
  (0 <= t2step ti)%Z ->
  (i + 1)%nat = List.length wave ->
  exists wave',
    addStep ti Vi Vf wave = (Raise IndexError, wave') /\
    List.length wave' = List.length wave /\
    forall j d, nth j wave' d = if (j =? i)%nat then V2b Vi else nth j wave d.
Proof.
  intros i H0 H1. subst i. set (i := Z.to_nat (t2step ti)) in *.
  unfold addStep. unfold bind at 1.
  rewrite assign_run by lia. fold i.
  set (w1 := (firstn i wave ++ V2b Vi :: skipn (S i) wave)%list).
  assert (L1 : List.length w1 = List.length wave) by (apply assigned_length; lia).
  unfold bind at 1. rewrite assign_raises by lia.
  exists w1. split; [reflexivity |]. split; [exact L1 |].
  intros j d. unfold w1. apply setitem_nth. lia.
Qed.

Lemma nth_map_seq (g : Z -> Q) (start len k : nat) (d : Q) :
  (k < len)%nat ->
  nth k (map g (map Z.of_nat (seq start len))) d = g (Z.of_nat (start + k)).
Proof.
  revert start k. induction len as [| len IH]; intros start [| k] H; simpl;
    try lia.
  - rewrite Nat.add_0_r. reflexivity.
  - rewrite IH by lia. f_equal. lia.
Qed.

Lemma firstn_seq (n start len : nat) :
  firstn n (seq start len) = seq start (Nat.min n len).
Proof.
  revert start len. induction n as [| n IH]; intros start [| len]; simpl;
    try reflexivity.
  rewrite IH. reflexivity.
Qed.

Lemma slice_T (i f : Z) :
  (0 <= i <= f)%Z -> (f <= nSteps)%Z ->
  slice i f T = map Z.of_nat (seq (Z.to_nat i) (Z.to_nat f - Z.to_nat i)).
Proof.
  intros H1 H2. unfold slice, T.
  rewrite length_map, length_seq, Z2Nat.id by (unfold nSteps; lia).
  rewrite !clip_in_range by lia.
  rewrite skipn_map, firstn_map, skipn_seq, firstn_seq. f_equal. f_equal.
  unfold nSteps in *. lia.
Qed.

(** X20.  On a wave of [nSteps] samples and for steps
    [0 <= i <= f <= nSteps] ([i = t2step(ti)], [f = t2step(tf)]),
    [addRampSegment(ti, Vi, tf, Vf)] leaves the samples before [i],
    writes [V2b(Vi + (Vf - Vi)*(j - i)/(f - i))] at every step [j] from [i]
    up to [f - 1], and [V2b(Vf)] from [f] up to, but not including, the
    last sample. *)
Theorem addRampSegment_effect (ti Vi tf Vf : Q) (wave : Wave) :
  let i := t2step ti in
  let f := t2step tf in
  List.length wave = Z.to_nat nSteps ->
  (0 <= i <= f)%Z -> (f <= nSteps)%Z ->
  exists wave',
    addRampSegment ti Vi tf Vf wave = (Ok tt, wave') /\
    List.length wave' = List.length wave /\
    forall j d,
      nth j wave' d
      = if (j <? Z.to_nat i)%nat then nth j wave d
        else if (j <? Z.to_nat f)%nat
             then V2b (Vi + (Vf - Vi) * inject_Z (Z.of_nat j - i) / inject_Z (f - i))
             else if (j <? Z.to_nat nSteps - 1)%nat then V2b Vf
                  else nth j wave d.
Proof.
  intros i f Hlen Hi Hf.
  assert (Hn : Z.of_nat (List.length wave) = nSteps) by (rewrite Hlen; reflexivity).
  unfold addRampSegment. fold i f.
  set (g := fun k : Z => V2b (Vi + (Vf - Vi) * inject_Z (k - i) / inject_Z (f - i))).
  unfold bind at 1. unfold gets at 1.
  unfold bind at 1. unfold lift at 1.
  rewrite slice_T by assumption.
  set (lo := Z.to_nat i). set (hi := Z.to_nat f).
  set (ramp := map g (map Z.of_nat (seq lo (hi - lo)))).
  assert (Lr : List.length ramp = (hi - lo)%nat)
    by (unfold ramp; rewrite !length_map, length_seq; reflexivity).
  assert (Hlo : (lo <= hi)%nat) by (unfold lo, hi; lia).
  assert (Hhi : (hi <= List.length wave)%nat) by (unfold hi; unfold nSteps in *; lia).
  assert (Eset : slice_set i f ramp wave
                 = Ok (firstn lo wave ++ ramp ++ skipn (Nat.max lo hi) wave)%list).
  { unfold slice_set. rewrite Hn, !clip_in_range by lia.
    fold lo hi. rewrite Lr, Nat.eqb_refl. reflexivity. }
  rewrite Eset.
  set (w2 := (firstn lo wave ++ ramp ++ skipn (Nat.max lo hi) wave)%list).
  assert (L2 : List.length w2 = List.length wave)
    by (apply splice_length; assumption).
  unfold bind at 1. unfold modify at 1.
  exists (slice_fill f (-1) (V2b Vf) w2).
  split; [reflexivity |].
  split; [rewrite slice_fill_length; congruence |].
  intros j d. rewrite fillV_nth. rewrite L2, Hn, Hlen.
  rewrite clip_in_range by lia. fold hi.
  unfold w2. rewrite splice_nth by assumption.
  destruct (Nat.ltb_spec j lo) as [A | A].
  - replace (hi <=? j)%nat with false by (symmetry; apply Nat.leb_gt; lia).
    replace (lo <=? j)%nat with false by (symmetry; apply Nat.leb_gt; lia).
    reflexivity.
  - replace (lo <=? j)%nat with true by (symmetry; apply Nat.leb_le; lia).
    destruct (Nat.ltb_spec j hi) as [B | B].
    + replace (hi <=? j)%nat with false by (symmetry; apply Nat.leb_gt; lia).
      simpl. unfold ramp.
      rewrite (nth_map_seq g lo (hi - lo) (j - lo) d) by lia.
      unfold g. replace (Z.of_nat (lo + (j - lo))) with (Z.of_nat j) by lia.
      reflexivity.
    + replace (hi <=? j)%nat with true by (symmetry; apply Nat.leb_le; lia).
      simpl. reflexivity.
Qed.

End ArbWaveFacts.

(* ===================================================================== *)
(** ** More facts about the arbitrary-waveform loaders *)
(* ===================================================================== *)

Module LoaderFacts.

Import Generator GeneratorSpec GeneratorRuns GeneratorFacts RoundFacts.

Local Open Scope string_scope.

Lemma upload_commands_length val_list : forall num channel,
  List.length (upload_commands num val_list channel) = List.length val_list.
Proof.
  induction val_list as [| val rest IH]; intros num channel; simpl;
    [reflexivity | rewrite IH; reflexivity].
Qed.

(** A progress line is printed for every 50th point. *)
Lemma progress_length val_list : forall num,
  (0 <= num)%Z ->
  Z.of_nat (List.length (progress num val_list))
  = ((num + Z.of_nat (List.length val_list) - 1) / 50 - (num - 1) / 50)%Z.
Proof.
  induction val_list as [| val rest IH]; intros num Hnum.
  - simpl. replace (num + 0 - 1)%Z with (num - 1)%Z by lia. lia.
  - cbn [progress]. rewrite length_app, Nat2Z.inj_add, IH by lia.
    cbn [List.length]. rewrite Nat2Z.inj_succ.
    replace (num + 1 + Z.of_nat (List.length rest) - 1)%Z
      with (num + Z.succ (Z.of_nat (List.length rest)) - 1)%Z by lia.
    replace (num + 1 - 1)%Z with num by lia.
    assert (Hstep : Z.of_nat (List.length
                      (if (num mod 50 =? 0)%Z
                       then [PText ("Loading point " ++ str_int num ++ " with value "
                                      ++ str_int val)]
                       else []))
                    = (num / 50 - (num - 1) / 50)%Z).
    { pose proof (Z.div_mod num 50 ltac:(lia)) as D.
      pose proof (Z.mod_pos_bound num 50 ltac:(lia)) as B.
      destruct (Z.eqb_spec (num mod 50) 0) as [E | E]; cbn [List.length].
      - assert (num - 1 = 50 * (num / 50 - 1) + 49)%Z by lia.
        assert ((num - 1) / 50 = num / 50 - 1)%Z.
        { symmetry. apply (Z.div_unique _ _ _ 49); lia. }
        lia.
      - assert ((num - 1) / 50 = num / 50)%Z.
        { symmetry. apply (Z.div_unique _ _ _ (num mod 50 - 1)); lia. }
        lia. }
    rewrite Hstep. lia.
Qed.

Section WithBuiltins.

#[local] Set Default Proof Using "Type".

Variable str_float : Q -> string.
Variable bad_int : Z.

Lemma upload_state val_list : forall num channel g,
  upload num val_list channel g
  = (Ok tt, mkGen (rev (upload_commands num val_list channel) ++ sent g)
                  (rev (progress num val_list) ++ stdout g)).
Proof.
  induction val_list as [| val rest IH]; intros num channel g.
  - destruct g. reflexivity.
  - cbn [upload upload_commands progress].
    unfold bind at 1.
    destruct (num mod 50 =? 0)%Z.
    + unfold when, print, modify. unfold bind at 1.
      unfold setVolatileVal, write, modify. rewrite IH. cbn [sent stdout rev].
      rewrite rev_app_distr, <- !app_assoc. reflexivity.
    + unfold when, ret. unfold bind at 1.
      unfold setVolatileVal, write, modify. rewrite IH. cbn [sent stdout rev].
      rewrite <- !app_assoc. reflexivity.
Qed.

Lemma quantize_code VMin VAmpl pointRange V :
  quantize bad_int pointRange (rescale VMin VAmpl V)
  = map (code bad_int VMin VAmpl pointRange) V.
Proof. unfold quantize, rescale. rewrite map_map. reflexivity. Qed.


(** X12.  On a non-empty voltage vector and a time vector whose first two
    times differ, [loadVolatile] returns after writing the waveform
    settings, the point count and one point per voltage, numbered from 1:
    the point count announced is the length of the time vector, the
    number of points written the length of the voltage vector.  A progress
    line is printed for every 50th point.  Vectors of different lengths
    only add a message: the upload is not refused. *)
Theorem loadVolatile_uploads_every_point t0 t1 t' v0 V' channel pointRange g :
  let t := t0 :: t1 :: t' in
  let V := v0 :: V' in
  let VMin := amin v0 V' in
  let VAmpl := (amax v0 V' - VMin)%Q in
  let points := upload_commands 1 (map (code bad_int VMin VAmpl pointRange) V)
                                channel in
  ~ (t1 == t0)%Q ->
  exists g' arb settings,
    loadVolatile str_float bad_int t V channel pointRange g = (Ok tt, g') /\
    sent g' = (rev points
                 ++ [(":SOUR" ++ str_int channel ++ ":TRACE:DATA:POIN VOLATILE,"
                        ++ str_int (Z.of_nat (List.length t)))%string; arb]
                 ++ sent g)%list /\
    List.length points = List.length V /\
    Z.of_nat (List.length (progress 1 (map (code bad_int VMin VAmpl pointRange) V)))
    = (Z.of_nat (List.length V) / 50)%Z /\
    stdout g' = (rev (progress 1 (map (code bad_int VMin VAmpl pointRange) V))
                   ++ [settings]
                   ++ (if (List.length t =? List.length V)%nat then []
                       else [mismatch_message])
                   ++ stdout g)%list.
Proof.
  intros t V VMin VAmpl points Hdt.
  assert (Ez : Qeq_bool (t1 - t0) 0 = false).
  { destruct (Qeq_bool (t1 - t0) 0) eqn:E; [| reflexivity].
    exfalso. apply Hdt. apply Qeq_bool_iff in E. lra. }
  unfold loadVolatile. subst t V. unfold bind at 1.
  rewrite Ez. rewrite quantize_code. fold VMin. fold VAmpl.
  destruct (List.length (t0 :: t1 :: t') =? List.length (v0 :: V'))%nat;
    cbv [when negb print modify ret];
    unfold bind at 1; cbv [print modify];
    unfold bind at 1; unfold setArbitrary, write; cbv [modify];
    unfold bind at 1; unfold setVolatilePoints, write; cbv [modify];
    rewrite upload_state; cbn [sent stdout];
    eexists; eexists; eexists;
    (split; [reflexivity |]; split; [reflexivity |];
     split; [subst points; rewrite upload_commands_length, length_map; reflexivity |];
     split; [| reflexivity];
     rewrite progress_length, length_map by lia;
     replace (1 + Z.of_nat (List.length (v0 :: V')) - 1)%Z
       with (Z.of_nat (List.length (v0 :: V'))) by lia;
     change ((1 - 1) / 50)%Z with 0%Z; lia).
Qed.

Lemma fold_min_in (l : list Q) (x : Q) : In (fold_left Qmin l x) (x :: l).
Proof.
  revert x. induction l as [| y l IH]; intros x; simpl.
  - left. reflexivity.
  - destruct (IH (Qmin x y)) as [E | I].
    + rewrite <- E. unfold Qmin, GenericMinMax.gmin.
      destruct (x ?= y)%Q; [left | left | right; left]; reflexivity.
    + right. right. exact I.
Qed.

Lemma fold_max_in (l : list Q) (x : Q) : In (fold_left Qmax l x) (x :: l).
Proof.
  revert x. induction l as [| y l IH]; intros x; simpl.
  - left. reflexivity.
  - destruct (IH (Qmax x y)) as [E | I].
    + rewrite <- E. unfold Qmax, GenericMinMax.gmax.
      destruct (x ?= y)%Q; [left | right; left | left]; reflexivity.
    + right. right. exact I.
Qed.

Lemma code_round VMin VAmpl pointRange v :
  ~ (VAmpl == 0)%Q ->
  code bad_int VMin VAmpl pointRange v
  = Np.round_half_even (1 * (v - VMin) / VAmpl * inject_Z pointRange).
Proof.
  intros H. unfold code, np_div.
  destruct (Qeq_bool VAmpl 0) eqn:E; [apply Qeq_bool_iff in E; contradiction |].
  cbn [np_mul]. apply astype_int_round.
Qed.

(** X13.  For a voltage vector that is not constant, the points
    [loadVolatile] uploads use the whole range: a voltage equal to the
    minimum is uploaded as 0, one equal to the maximum as [pointRange], both
    values occur among the points, and for a non-negative [pointRange] a
    larger voltage never gets a smaller point. *)
Theorem loadVolatile_full_range (v0 : Q) (V' : list Q) (pointRange : Z) :
  let V := v0 :: V' in
  let VMax := amax v0 V' in
  let VMin := amin v0 V' in
  let VAmpl := (VMax - VMin)%Q in
  let val_list := quantize bad_int pointRange (rescale VMin VAmpl V) in
  ~ (VMax == VMin)%Q ->
  val_list = map (code bad_int VMin VAmpl pointRange) V /\
  code bad_int VMin VAmpl pointRange VMin = 0%Z /\
  code bad_int VMin VAmpl pointRange VMax = pointRange /\
  In 0%Z val_list /\ In pointRange val_list /\
  ((0 <= pointRange)%Z ->
   forall v w, (v <= w)%Q ->
     (code bad_int VMin VAmpl pointRange v
      <= code bad_int VMin VAmpl pointRange w)%Z).
Proof.
  intros V VMax VMin VAmpl val_list Hne.
  assert (HA : ~ (VAmpl == 0)%Q) by (unfold VAmpl; intros E; apply Hne; lra).
  assert (Hpos : (0 < VAmpl)%Q).
  { pose proof (amin_amax_bounds v0 V') as B. inversion B as [| ? ? [B1 B2] _]; subst.
    fold VMin in B1. fold VMax in B2. unfold VAmpl.
    destruct (Qlt_le_dec VMin VMax) as [L | L]; [lra |].
    exfalso. apply Hne. lra. }
  assert (E0 : code bad_int VMin VAmpl pointRange VMin = 0%Z).
  { rewrite code_round by exact HA. apply round_half_even_Z.
    change (inject_Z 0) with 0%Q. field. exact HA. }
  assert (E1 : code bad_int VMin VAmpl pointRange VMax = pointRange).
  { rewrite code_round by exact HA. apply round_half_even_Z.
    unfold VAmpl. field. fold VAmpl. exact HA. }
  assert (EV : val_list = map (code bad_int VMin VAmpl pointRange) V)
    by apply quantize_code.
  split; [exact EV |]. split; [exact E0 |]. split; [exact E1 |].
  split; [| split].
  - rewrite EV. apply in_map_iff. exists VMin. split; [exact E0 | apply fold_min_in].
  - rewrite EV. apply in_map_iff. exists VMax. split; [exact E1 | apply fold_max_in].
  - intros Hp v w Hvw. rewrite !code_round by exact HA.
    apply round_half_even_mono.
    assert (HP : (0 <= inject_Z pointRange)%Q).
    { change 0%Q with (inject_Z 0). rewrite <- Zle_Qle. exact Hp. }
    apply Qmult_le_compat_r; [| exact HP].
    apply Qmult_le_compat_r; [lra |].
    apply Qlt_le_weak. apply Qinv_lt_0_compat. exact Hpos.
Qed.

End WithBuiltins.

End LoaderFacts.

(* ===================================================================== *)
(** ** Facts about the standard waveforms *)
(* ===================================================================== *)

Module WavesFacts.

Import Generator DG1032Waves.

Local Open Scope string_scope.

Lemma py_div_zero (x y : pynum) :
  (to_float y == 0)%Q -> py_div x y = Raise ZeroDivisionError.
Proof.
  intros H. unfold py_div. apply Qeq_bool_iff in H. rewrite H. reflexivity.
Qed.

Lemma py_div_small (a b : Z) :
  (0 <= a < b)%Z -> py_div (PInt a) (PInt b) = py_div (PInt 0) (PInt b).
Proof.
  intros H. unfold py_div. cbn [to_float].
  destruct (Qeq_bool (inject_Z b) 0); [reflexivity |].
  rewrite Z.div_small by exact H. rewrite Z.div_0_l by lia. reflexivity.
Qed.

Section WithBuiltins.

#[local] Set Default Proof Using "Type".

Variable str_float : Q -> string.

(** X14.  With a period of zero, [setSquareWave], [setPulse] and
    [setRamp] raise [ZeroDivisionError] on [1.0/period], before any
    command is written. *)
Theorem zero_period_raises (period : pynum) :
  (to_float period == 0)%Q ->
  forall channel highV lowV duty delay ampl offset phase symm g,
    setSquareWave str_float channel highV lowV period delay g
      = (Raise ZeroDivisionError, g) /\
    setPulse str_float channel highV lowV period duty delay g
      = (Raise ZeroDivisionError, g) /\
    setRamp str_float channel period ampl offset phase symm g
      = (Raise ZeroDivisionError, g).
Proof.
  intros H channel highV lowV duty delay ampl offset phase symm g.
  unfold setSquareWave, setPulse, setRamp.
  unfold bind, lift. rewrite (py_div_zero (PFloat 1) period H).
  repeat split.
Qed.

(** X15.  The phase is computed as [(delay/period)*360.0]; with a delay
    and a period that are both [int]s the quotient is Python 2's floor
    division, so that an integer delay shorter than the integer period is
    lost: [setSquareWave] and [setPulse] write the commands they write for
    a delay of 0. *)
Theorem integer_delay_is_floored (delay period : Z) :
  (0 <= delay < period)%Z ->
  forall channel highV lowV duty g,
    setSquareWave str_float channel highV lowV (PInt period) (PInt delay) g
    = setSquareWave str_float channel highV lowV (PInt period) (PInt 0) g /\
    setPulse str_float channel highV lowV (PInt period) duty (PInt delay) g
    = setPulse str_float channel highV lowV (PInt period) duty (PInt 0) g /\
    exists command,
      setSquareWave str_float channel highV lowV (PInt period) (PInt delay) g
      = (Ok tt, mkGen (command :: sent g) (stdout g)).
Proof.
  intros H channel highV lowV duty g.
  unfold setSquareWave, setPulse.
  rewrite (py_div_small delay period H).
  split; [reflexivity |]. split; [reflexivity |].
  unfold bind, lift, py_div. cbn [to_float].
  assert (E : Qeq_bool (inject_Z period) 0 = false).
  { destruct (Qeq_bool (inject_Z period) 0) eqn:E; [| reflexivity].
    apply Qeq_bool_iff in E. unfold Qeq in E. simpl in E. lia. }
  rewrite E. eexists. reflexivity.
Qed.

End WithBuiltins.

End WavesFacts.

(* ===================================================================== *)
(** ** Facts about the choice of a generator *)
(* ===================================================================== *)

Module ScriptFacts.

Import Index InstrumentControlScript IndexFacts.

Local Open Scope string_scope.

(** The indices the comprehension collects, counted from [start]. *)
Lemma locations_from (pat : string) (usb : list string) : forall start,
  map fst (filter (fun p => contains pat (snd p))
                  (combine (map Z.of_nat (seq start (List.length usb))) usb))
  = match usb with
    | [] => []
    | a :: rest =>
        let tl := map fst (filter (fun p => contains pat (snd p))
                    (combine (map Z.of_nat (seq (S start) (List.length rest))) rest)) in
        if contains pat a then Z.of_nat start :: tl else tl
    end.
Proof.
  intros start. destruct usb as [| a rest]; [reflexivity |].
  cbn [List.length seq map combine filter snd].
  destruct (contains pat a); reflexivity.
Qed.

Lemma locations_none (pat : string) (usb : list string) : forall start,
  Forall (fun a => contains pat a = false) usb ->
  map fst (filter (fun p => contains pat (snd p))
                  (combine (map Z.of_nat (seq start (List.length usb))) usb)) = [].
Proof.
  induction usb as [| a rest IH]; intros start F; [reflexivity |].
  rewrite locations_from. cbv zeta.
  inversion F as [| ? ? Ha Fr]; subst. rewrite Ha. apply IH. exact Fr.
Qed.

Lemma locations_first (pat : string) (usb : list string) : forall start k a,
  nth_error usb k = Some a ->
  contains pat a = true ->
  (forall j b, (j < k)%nat -> nth_error usb j = Some b -> contains pat b = false) ->
  exists tl,
    map fst (filter (fun p => contains pat (snd p))
                    (combine (map Z.of_nat (seq start (List.length usb))) usb))
    = Z.of_nat (start + k) :: tl.
Proof.
  induction usb as [| x rest IH]; intros start k a Hk Ha Hfirst.
  - destruct k; discriminate Hk.
  - rewrite locations_from. cbv zeta. destruct k as [| k].
    + simpl in Hk. injection Hk as ->. rewrite Ha.
      rewrite Nat.add_0_r. eexists. reflexivity.
    + rewrite (Hfirst 0%nat x (Nat.lt_0_succ k) eq_refl).
      destruct (IH (S start) k a) as (tl & E).
      * exact Hk.
      * exact Ha.
      * intros j b Hj Hb. apply (Hfirst (S j) b); [lia | exact Hb].
      * exists tl. rewrite E. f_equal. f_equal. lia.
Qed.

Lemma getitem_at {A} (l : list A) (k : nat) (a : A) :
  nth_error l k = Some a -> getitem l (Z.of_nat k) = Ok a.
Proof.
  intros H. unfold getitem.
  assert (L : (k < List.length l)%nat) by (apply nth_error_Some; congruence).
  rewrite position_in_range by lia. rewrite Nat2Z.id, H. reflexivity.
Qed.

Lemma getitem_head {A} (x : A) (l : list A) : getitem (x :: l) 0 = Ok x.
Proof. reflexivity. Qed.

(** X22.  When some address of the list contains ['DG1'] (['DG4'] for
    [getDG4162USBAddress]), the function returns the first such address of
    the list, and the last line it prints shows that address. *)
Theorem first_matching_address (usb : list string) (k : nat) (a : string) :
  nth_error usb k = Some a ->
  (contains "DG1" a = true ->
   (forall j b, (j < k)%nat -> nth_error usb j = Some b -> contains "DG1" b = false) ->
   forall out, exists out',
     getDG1032USBAddress usb out
     = (Ok a, (nl ++ " " ++ nl ++ "Using this DG1032 function generator:" ++ nl ++ a)
                :: out')) /\
  (contains "DG4" a = true ->
   (forall j b, (j < k)%nat -> nth_error usb j = Some b -> contains "DG4" b = false) ->
   forall out, exists out',
     getDG4162USBAddress usb out = (Ok a, a :: out')).
Proof.
  intros Hk. split; intros Ha Hfirst out.
  - destruct (locations_first "DG1" usb 0 k a Hk Ha Hfirst) as (tl & E).
    simpl in E.
    unfold getDG1032USBAddress, locations. rewrite E.
    set (msg := (_ ++ a)%string).
    assert (Hp : exists out1,
      (if (List.length (Z.of_nat k :: tl) =? 0)%nat
       then print "Trying to connect to a DG1032 function generator, but no function generator found in list of USB devices!"
       else if (1 <? List.length (Z.of_nat k :: tl))%nat
            then print (nl ++ "More than one 'DG1' device was found, the first one will be used!")
            else ret tt) out = (Ok tt, out1)).
    { cbn [List.length Nat.eqb].
      destruct (1 <? S (List.length tl))%nat; eexists; reflexivity. }
    destruct Hp as (out1 & Ep).
    unfold bind at 1. rewrite Ep.
    unfold bind at 1. unfold lift at 1. rewrite getitem_head.
    unfold bind at 1. unfold lift at 1. rewrite (getitem_at usb k a Hk).
    exists out1. reflexivity.
  - destruct (locations_first "DG4" usb 0 k a Hk Ha Hfirst) as (tl & E).
    simpl in E.
    unfold getDG4162USBAddress, locations. rewrite E.
    assert (Hp : exists out1,
      (if (List.length (Z.of_nat k :: tl) =? 0)%nat
       then print "Trying to connect to a DG4162 function generator, but no function generator found in list of USB devices!"
       else if (1 <? List.length (Z.of_nat k :: tl))%nat
            then print (nl ++ "More than one 'DG4' device was found, the first one will be used!")
            else ret tt) out = (Ok tt, out1)).
    { cbn [List.length Nat.eqb].
      destruct (1 <? S (List.length tl))%nat; eexists; reflexivity. }
    destruct Hp as (out1 & Ep).
    unfold bind at 1. rewrite Ep.
    unfold bind at 1. unfold lift at 1. rewrite getitem_head.
    unfold bind at 1. unfold lift at 1. rewrite (getitem_at usb k a Hk).
    eexists. reflexivity.
Qed.

(** X23.  When no address of the list contains the pattern, each function
    prints that no generator was found and then raises [IndexError] on
    [loc[0]]; nothing is returned. *)
Theorem no_matching_address (usb : list string) :
  (Forall (fun a => contains "DG1" a = false) usb ->
   forall out,
     getDG1032USBAddress usb out
     = (Raise IndexError,
        "Trying to connect to a DG1032 function generator, but no function generator found in list of USB devices!"
          :: out)) /\
  (Forall (fun a => contains "DG4" a = false) usb ->
   forall out,
     getDG4162USBAddress usb out
     = (Raise IndexError,
        "Trying to connect to a DG4162 function generator, but no function generator found in list of USB devices!"
          :: out)).
Proof.
  split; intros F out.
  - unfold getDG1032USBAddress, locations.
    rewrite (locations_none "DG1" usb 0 F). reflexivity.
  - unfold getDG4162USBAddress, locations.
    rewrite (locations_none "DG4" usb 0 F). reflexivity.
Qed.

End ScriptFacts.

(* ===================================================================== *)
(** ** The statements above at concrete inputs *)
(* ===================================================================== *)

Module ScopeRunExamples.

Import DS1102 ScopeSpec ScopeRuns Bench Examples ScopeRunFacts.

Local Open Scope string_scope.


Lemma readWaveform_short_read_witness :
  exists s',
    readWaveform bench_float bench_int (simulate short_scope)
                 (PyInt 1) true (with_channels 2) = (Raise ValueError, s') /\
    nPoints s' = Some 8202%Z /\
    ((610 < 8202)%Z -> In ":RUN" (sent s')).
Proof.
  apply (readWaveform_short_read bench_float bench_int (simulate short_scope)
           (with_channels 2) (PyInt 1) true 1 false "RAW" "NORMAL" 2 8202
           "1.000e-03" (1 # 1000) "0" 0 33 0 1 1 2).
  - intros log. reflexivity.
  - intros log. reflexivity.
  - reflexivity.
  - reflexivity.
  - intros log. reflexivity.
  - reflexivity.
  - intros H. discriminate H.
  - intros log. reflexivity.
  - reflexivity.
  - reflexivity.
  - split; reflexivity.
  - exists "0", "1". repeat split; try (intros log; reflexivity).
    intros H. discriminate H.
  - intros H. discriminate H.
  - intros log. apply Nat.ltb_lt. vm_compute. reflexivity.
Defined.

Lemma readWaveform_bad_channel_witness :
  exists s',
    readWaveform bench_float bench_int (simulate normal_scope)
                 (PyStr "CH1") true (with_channels 2) = (Raise ValueError, s') /\
    sent s' = (getTimeVec_queries ++ sent (with_channels 2))%list /\
    stdout s' = PNumber 12 :: stdout (with_channels 2).
Proof.
  apply (readWaveform_bad_channel bench_float bench_int (simulate normal_scope)
           (with_channels 2) (PyStr "CH1") true "NORMAL" "LONG" 2 610
           "1.000e-03" (1 # 1000) "0" 0 12).
  - intros log. reflexivity.
  - intros log. reflexivity.
  - reflexivity.
  - reflexivity.
  - intros log. reflexivity.
  - reflexivity.
  - intros H. discriminate H.
  - intros log. reflexivity.
  - reflexivity.
  - reflexivity.
  - reflexivity.
  - reflexivity.
Defined.


Lemma getNDevs_listed_witness :
  exists s',
    getNDevs bench_float (simulate raw_scope) (with_channels 2) = (Ok 33%Q, s') /\
    sent s' = ":ACQ:MEMDEPTH?" :: ":WAV:POINTS:MODE?" :: ":TIM:SCAL?"
                :: sent (with_channels 2) /\
    stdout s' = stdout (with_channels 2) /\
    nPoints s' = nPoints (with_channels 2) /\
    (2 = 1 \/ 2 = 2)%Z.
Proof.
  apply (getNDevs_listed bench_float (simulate raw_scope) (with_channels 2)
           "RAW" "NORMAL" "1.000e-03" (1 # 1000) 2 devDict_normal_2 33).
  - intros log. reflexivity.
  - reflexivity.
  - intros log. reflexivity.
  - intros log. reflexivity.
  - reflexivity.
  - reflexivity.
  - reflexivity.
  - reflexivity.
Defined.

Lemma getNDevs_no_table_witness :
  exists s',
    getNDevs bench_float (simulate raw_scope) (with_channels 0)
      = (Raise UnboundLocalError, s') /\
    sent s' = ":ACQ:MEMDEPTH?" :: ":WAV:POINTS:MODE?" :: ":TIM:SCAL?"
                :: sent (with_channels 0) /\
    stdout s' = stdout (with_channels 0).
Proof.
  apply (getNDevs_no_table bench_float (simulate raw_scope) (with_channels 0)
           "RAW" "NORMAL" "1.000e-03" (1 # 1000) 0).
  - intros log. reflexivity.
  - reflexivity.
  - intros log. reflexivity.
  - intros log. reflexivity.
  - reflexivity.
  - reflexivity.
  - lia.
  - lia.
Defined.

Lemma readWaveform_unset_channels_witness :
  exists s',
    readWaveform bench_float bench_int (simulate normal_scope) (PyInt 1) true init
      = (Raise AttributeError, s') /\
    sent s' = ":ACQ:MEMDEPTH?" :: ":WAV:POINTS:MODE?" :: sent init /\
    stdout s' = stdout init /\
    nPoints s' = nPoints init.
Proof.
  apply (readWaveform_unset_channels bench_float bench_int (simulate normal_scope)
           (PyInt 1) true init).
  reflexivity.
Defined.

Lemma setNumChannels_then_getNPoints_witness :
  exists s1,
    setNumChannels 2 init = (Ok tt, s1) /\
    nChannels s1 = Some 2%Z /\
    sent s1 = (":CHAN2:DISP " ++ (if (2 =? 2)%Z then "ON" else "OFF"))
                :: ":CHAN1:DISP ON" :: sent init /\
    ((2 = 1 \/ 2 = 2)%Z ->
       exists s2,
         getNPoints (simulate raw_scope) s1 = (Ok tt, s2) /\
         nPoints s2
         = Some ((if ("NORMAL" =? "NORMAL")%string then 16384 else 1048576) / 2 + 10)%Z) /\
    (2 <> 1%Z -> 2 <> 2%Z ->
       exists s2,
         getNPoints (simulate raw_scope) s1 = (Raise UnboundLocalError, s2) /\
         nPoints s2 = nPoints init).
Proof.
  apply (setNumChannels_then_getNPoints (simulate raw_scope) init "RAW" "NORMAL" 2).
  - intros log. reflexivity.
  - reflexivity.
  - intros log. reflexivity.
  - left. reflexivity.
Defined.

End ScopeRunExamples.

Module LoaderExamples.

Import Generator GeneratorSpec GeneratorRuns Bench LoaderFacts.

Local Open Scope string_scope.


Lemma loadVolatile_uploads_every_point_witness :
  exists g' arb settings,
    loadVolatile bench_str_float 0 [0%Q; 1%Q; 2%Q] [0%Q; 1%Q] 1 16383 (mkGen [] [])
      = (Ok tt, g') /\
    sent g' = (rev (upload_commands 1
                      (map (code 0 (amin 0 [1%Q]) (amax 0 [1%Q] - amin 0 [1%Q]) 16383)
                           [0%Q; 1%Q]) 1)
                 ++ [(":SOUR" ++ str_int 1 ++ ":TRACE:DATA:POIN VOLATILE,"
                        ++ str_int (Z.of_nat (List.length [0%Q; 1%Q; 2%Q])))%string; arb]
                 ++ sent (mkGen [] []))%list /\
    List.length (upload_commands 1
                   (map (code 0 (amin 0 [1%Q]) (amax 0 [1%Q] - amin 0 [1%Q]) 16383)
                        [0%Q; 1%Q]) 1)
    = List.length [0%Q; 1%Q] /\
    Z.of_nat (List.length (progress 1
                (map (code 0 (amin 0 [1%Q]) (amax 0 [1%Q] - amin 0 [1%Q]) 16383)
                     [0%Q; 1%Q])))
    = (Z.of_nat (List.length [0%Q; 1%Q]) / 50)%Z /\
    stdout g' = (rev (progress 1
                   (map (code 0 (amin 0 [1%Q]) (amax 0 [1%Q] - amin 0 [1%Q]) 16383)
                        [0%Q; 1%Q]))
                   ++ [settings]
                   ++ (if (List.length [0%Q; 1%Q; 2%Q] =? List.length [0%Q; 1%Q])%nat
                       then [] else [mismatch_message])
                   ++ stdout (mkGen [] []))%list.
Proof.
  apply (loadVolatile_uploads_every_point bench_str_float 0 0 1 [2%Q] 0 [1%Q] 1 16383
           (mkGen [] [])).
  intros H. discriminate H.
Defined.

Lemma loadVolatile_full_range_witness :
  quantize 0 16383 (rescale (amin 0 [1%Q]) (amax 0 [1%Q] - amin 0 [1%Q]) [0%Q; 1%Q])
  = map (code 0 (amin 0 [1%Q]) (amax 0 [1%Q] - amin 0 [1%Q]) 16383) [0%Q; 1%Q] /\
  code 0 (amin 0 [1%Q]) (amax 0 [1%Q] - amin 0 [1%Q]) 16383 (amin 0 [1%Q]) = 0%Z /\
  code 0 (amin 0 [1%Q]) (amax 0 [1%Q] - amin 0 [1%Q]) 16383 (amax 0 [1%Q]) = 16383%Z /\
  In 0%Z (quantize 0 16383
            (rescale (amin 0 [1%Q]) (amax 0 [1%Q] - amin 0 [1%Q]) [0%Q; 1%Q])) /\
  In 16383%Z (quantize 0 16383
                (rescale (amin 0 [1%Q]) (amax 0 [1%Q] - amin 0 [1%Q]) [0%Q; 1%Q])) /\
  ((0 <= 16383)%Z ->
   forall v w, (v <= w)%Q ->
     (code 0 (amin 0 [1%Q]) (amax 0 [1%Q] - amin 0 [1%Q]) 16383 v
      <= code 0 (amin 0 [1%Q]) (amax 0 [1%Q] - amin 0 [1%Q]) 16383 w)%Z).
Proof.
  apply (loadVolatile_full_range 0 0 [1%Q] 16383).
  intros H. discriminate H.
Defined.

End LoaderExamples.

Module WavesExamples.

Import Generator DG1032Waves Bench WavesFacts.

Lemma zero_period_raises_witness :
  setSquareWave bench_str_float 1 (PInt 1) (PInt (-1)) (PInt 0) (PInt 0) (mkGen [] [])
    = (Raise ZeroDivisionError, mkGen [] []) /\
  setPulse bench_str_float 1 (PInt 1) (PInt (-1)) (PInt 0) (PInt 50) (PInt 0)
           (mkGen [] [])
    = (Raise ZeroDivisionError, mkGen [] []) /\
  setRamp bench_str_float 1 (PInt 0) (PFloat (5 # 4)) (PInt 0) (PInt 0) (PInt 50)
          (mkGen [] [])
    = (Raise ZeroDivisionError, mkGen [] []).
Proof.
  refine (zero_period_raises bench_str_float (PInt 0) _
            1 (PInt 1) (PInt (-1)) (PInt 50) (PInt 0)
            (PFloat (5 # 4)) (PInt 0) (PInt 0) (PInt 50) (mkGen [] [])).
  reflexivity.
Defined.

Lemma integer_delay_is_floored_witness :
  setSquareWave bench_str_float 1 (PInt 1) (PInt (-1)) (PInt 2) (PInt 1) (mkGen [] [])
  = setSquareWave bench_str_float 1 (PInt 1) (PInt (-1)) (PInt 2) (PInt 0) (mkGen [] []) /\
  setPulse bench_str_float 1 (PInt 1) (PInt (-1)) (PInt 2) (PInt 50) (PInt 1)
           (mkGen [] [])
  = setPulse bench_str_float 1 (PInt 1) (PInt (-1)) (PInt 2) (PInt 50) (PInt 0)
             (mkGen [] []) /\
  exists command,
    setSquareWave bench_str_float 1 (PInt 1) (PInt (-1)) (PInt 2) (PInt 1) (mkGen [] [])
    = (Ok tt, mkGen (command :: sent (mkGen [] [])) (stdout (mkGen [] []))).
Proof.
  refine (integer_delay_is_floored bench_str_float 1 2 _
            1 (PInt 1) (PInt (-1)) (PInt 50) (mkGen [] [])).
  lia.
Defined.

End WavesExamples.

Module ScriptExamples.

Import InstrumentControlScript Examples ScriptFacts.

Local Open Scope string_scope.

Lemma first_matching_address_witness :
  (contains "DG1" "USB0::0x1AB1::0x0642::DG1ZA000000000::INSTR" = true ->
   (forall j b, (j < 1)%nat -> nth_error usb_list j = Some b ->
                contains "DG1" b = false) ->
   forall out, exists out',
     getDG1032USBAddress usb_list out
     = (Ok "USB0::0x1AB1::0x0642::DG1ZA000000000::INSTR",
        (nl ++ " " ++ nl ++ "Using this DG1032 function generator:" ++ nl
           ++ "USB0::0x1AB1::0x0642::DG1ZA000000000::INSTR") :: out')) /\
  (contains "DG4" "USB0::0x1AB1::0x0642::DG1ZA000000000::INSTR" = true ->
   (forall j b, (j < 1)%nat -> nth_error usb_list j = Some b ->
                contains "DG4" b = false) ->
   forall out, exists out',
     getDG4162USBAddress usb_list out
     = (Ok "USB0::0x1AB1::0x0642::DG1ZA000000000::INSTR",
        "USB0::0x1AB1::0x0642::DG1ZA000000000::INSTR" :: out')).
Proof.
  apply (first_matching_address usb_list 1
           "USB0::0x1AB1::0x0642::DG1ZA000000000::INSTR").
  reflexivity.
Defined.

End ScriptExamples.

Module ArbWaveExamples.

Import Index GenerateArb ArbWave Examples ArbWaveFacts.

Lemma getV_range_witness :
  (fst (getV 1 flat_wave) = Raise IndexError
   <-> (1 <= 1)%Q \/ (1 <= - (4097 # 4096))%Q) /\
  ((0 <= 1)%Q -> (1 < 1)%Q ->
   (0 <= t2step 1 < nSteps)%Z /\
   getV 1 flat_wave = (Ok (b2V (nth (Z.to_nat (t2step 1)) flat_wave 0%Q)), flat_wave)) /\
  snd (getV 1 flat_wave) = flat_wave.
Proof.
  apply (getV_range 1 flat_wave).
  apply repeat_length.
Defined.

Lemma addStep_effect_witness :
  exists wave',
    addStep (1 # 2) 1 0 flat_wave = (Ok tt, wave') /\
    List.length wave' = List.length flat_wave /\
    forall j d,
      nth j wave' d
      = if (j =? Z.to_nat (t2step (1 # 2)))%nat then V2b 1
        else if ((j =? Z.to_nat (t2step (1 # 2)) + 1)%nat
                 || ((Z.to_nat (t2step (1 # 2)) <? j)%nat
                     && (j <? List.length flat_wave - 1)%nat))%bool
             then V2b 0
             else nth j flat_wave d.
Proof.
  apply (addStep_effect (1 # 2) 1 0 flat_wave).
  - vm_compute. discriminate.
  - apply Nat.ltb_lt. vm_compute. reflexivity.
Defined.

Lemma addStep_last_step_witness :
  exists wave',
    addStep (4095 # 4096) 1 0 flat_wave = (Raise IndexError, wave') /\
    List.length wave' = List.length flat_wave /\
    forall j d,
      nth j wave' d
      = if (j =? Z.to_nat (t2step (4095 # 4096)))%nat then V2b 1
        else nth j flat_wave d.
Proof.
  apply (addStep_last_step (4095 # 4096) 1 0 flat_wave).
  - vm_compute. discriminate.
  - vm_compute. reflexivity.
Defined.

Lemma addRampSegment_effect_witness :
  exists wave',
    addRampSegment (1 # 4) 0 (1 # 2) 1 flat_wave = (Ok tt, wave') /\
    List.length wave' = List.length flat_wave /\
    forall j d,
      nth j wave' d
      = if (j <? Z.to_nat (t2step (1 # 4)))%nat then nth j flat_wave d
        else if (j <? Z.to_nat (t2step (1 # 2)))%nat
             then V2b (0 + (1 - 0) * inject_Z (Z.of_nat j - t2step (1 # 4))
                           / inject_Z (t2step (1 # 2) - t2step (1 # 4)))
             else if (j <? Z.to_nat nSteps - 1)%nat then V2b 1
                  else nth j flat_wave d.
Proof.
  apply (addRampSegment_effect (1 # 4) 0 (1 # 2) 1 flat_wave).
  - apply repeat_length.
  - vm_compute. split; discriminate.
  - vm_compute. discriminate.
Defined.

End ArbWaveExamples.
